(** * SEO analyzer: fetch, extract, score and classify

    A shallow embedding of the analyzer's back end:
    - [SeoService]   (services/seoService.js): [fetchHTML], [parseSEOData],
      [calculateScore];
    - [ErrorHandler] (utils/errorHandler.js): [handleError];
    - [Analyze]      (routes/analyze.js): the [POST /] handler;
    - [Run]: the extractor and the scorer once more, over an explicit store,
      for what a call leaves behind and what it reads of earlier calls.

    JavaScript strings are modelled as [string], one [ascii] per code unit,
    so the strings covered are those of code units below 256; counts are
    [nat], HTTP statuses [N], the score [Z].  A function that
    may throw returns a [Completion].  The libraries the code calls (axios,
    cheerio, the WHATWG [URL] constructor) are modelled at their interface:
    axios by the outcome of the transfer, cheerio by the parsed tree and its
    selector queries, [URL] by a parser handed in as a parameter. *)

From Stdlib Require Import String Ascii List Bool Arith NArith ZArith Lia.
From Stdlib Require Import Decimal DecimalString.
Import ListNotations.

Local Open Scope string_scope.
Local Open Scope list_scope.
Set Warnings "-register-all".

(* ================================================================== *)
(** ** JavaScript values and string primitives *)
(* ================================================================== *)

Module Js.

(** An IEEE double by its parts: the sign, the significand and the exponent
    of a finite number, the two infinities and NaN. *)
Inductive Number : Type :=
| NaN
| Infinity (negative : bool)
| Finite (negative : bool) (significand : N) (exponent : Z).

(** The values a JSON body can hold, [undefined] for a property that is not
    there, and NaN and the infinities among the numbers. *)
Inductive Value : Type :=
| VUndefined
| VNull
| VBool (b : bool)
| VNumber (n : Number)
| VString (s : string)
| VArray (items : list Value)
| VObject (fields : list (string * Value)).

(** ToBoolean. *)
Definition truthy (v : Value) : bool :=
  match v with
  | VUndefined | VNull => false
  | VBool b => b
  | VNumber NaN => false
  | VNumber (Infinity _) => true
  | VNumber (Finite _ m _) => negb (m =? 0)%N
  | VString s => negb (s =? "")
  | VArray _ | VObject _ => true
  end.

(** [typeof v === 'string']. *)
Definition is_string (v : Value) : bool :=
  match v with VString _ => true | _ => false end.

(** Property read on an object: the value stored under the key, [undefined]
    when the key is absent. *)
Fixpoint get (fields : list (string * Value)) (key : string) : Value :=
  match fields with
  | [] => VUndefined
  | (k, v) :: rest => if k =? key then v else get rest key
  end.

(** A string in a boolean position: the empty string is falsy. *)
Definition nonempty (s : string) : bool := negb (s =? "").

(** [a || b] on values that are a string or [undefined]/[null]. *)
Definition or_else (a b : option string) : option string :=
  match a with
  | Some s => if nonempty s then Some s else b
  | None => b
  end.

(** [s.startsWith(p)]. *)
Definition startsWith (s p : string) : bool := String.prefix p s.

(** [s.includes(n)]: [n] occurs in [s] at some offset. *)
Fixpoint includes (s n : string) : bool :=
  String.prefix n s ||
  match s with
  | EmptyString => false
  | String _ s' => includes s' n
  end.

(** The white space and line terminators [String.prototype.trim] strips,
    among the code units below 256: TAB, LF, VT, FF, CR, SPACE and the
    no-break space U+00A0. *)
Definition is_whitespace (c : ascii) : bool :=
  let n := nat_of_ascii c in
  ((9 <=? n) && (n <=? 13) || (n =? 32) || (n =? 160))%nat.

Fixpoint trimStart (s : string) : string :=
  match s with
  | EmptyString => EmptyString
  | String c s' => if is_whitespace c then trimStart s' else s
  end.

Fixpoint trimEnd (s : string) : string :=
  match s with
  | EmptyString => EmptyString
  | String c s' =>
      match trimEnd s' with
      | EmptyString => if is_whitespace c then EmptyString else String c EmptyString
      | t => String c t
      end
  end.

Definition trim (s : string) : string := trimEnd (trimStart s).

(** A body that holds nothing but white space (the empty body too). *)
Fixpoint only_whitespace (s : string) : bool :=
  match s with
  | EmptyString => true
  | String c s' => is_whitespace c && only_whitespace s'
  end.

(** [`${n}`] for a non-negative integer: its decimal digits. *)
Definition nat_to_string (n : nat) : string :=
  NilZero.string_of_uint (Nat.to_uint n).

Definition N_to_string (n : N) : string :=
  NilZero.string_of_uint (N.to_uint n).

(** Error objects: [name], [message], and the two properties axios adds,
    [code] and [response] (of which only [response.status] is read). *)
Record Error : Type := mkError {
  err_name : string;
  err_message : string;
  err_code : option string;
  err_response : option N
}.

(** [new Error(msg)]. *)
Definition new_Error (msg : string) : Error :=
  mkError "Error" msg None None.

(** What evaluating an undeclared identifier throws. *)
Definition ReferenceError (ident : string) : Error :=
  mkError "ReferenceError" (ident ++ " is not defined") None None.

(** What [new URL(s)] throws on a string it cannot parse. *)
Definition TypeError_invalid_url : Error :=
  mkError "TypeError" "Invalid URL" (Some "ERR_INVALID_URL") None.

(** [error.code === c]. *)
Definition code_is (e : Error) (c : string) : bool :=
  match err_code e with
  | Some c' => c' =? c
  | None => false
  end.

(** A completion: a value, or a thrown error. *)
Inductive Completion (A : Type) : Type :=
| Normal (a : A)
| Throw (e : Error).
Arguments Normal {A} a.
Arguments Throw {A} e.

Definition bind {A B : Type} (c : Completion A) (k : A -> Completion B)
  : Completion B :=
  match c with
  | Normal a => k a
  | Throw e => Throw e
  end.

(** The parts of a parsed URL that the code reads. *)
Record URL : Type := mkURL {
  protocol : string;
  hostname : string
}.

End Js.

Import Js.

Notation "x <- c ;; k" := (bind c (fun x => k))
  (at level 61, c at next level, right associativity).

(* ================================================================== *)
(** ** utils/errorHandler.js *)
(* ================================================================== *)

Module ErrorHandler.

(** The object [handleError] returns. *)
Record ErrorResponse : Type := mkErrorResponse {
  status : N;
  error : string;
  message : string
}.

(** [error.response && error.response.status === n]. *)
Definition response_status_is (e : Error) (n : N) : bool :=
  match err_response e with
  | Some s => (s =? n)%N
  | None => false
  end.

(** [error.response && error.response.status >= n]. *)
Definition response_status_ge (e : Error) (n : N) : bool :=
  match err_response e with
  | Some s => (n <=? s)%N
  | None => false
  end.

(** [error.response && error.response.status < n] given the response. *)
Definition response_status_lt (e : Error) (n : N) : bool :=
  match err_response e with
  | Some s => (s <? n)%N
  | None => false
  end.

(** The binding of the identifier [err] where line 95 reads it.  The
    function's parameter is [error] and its one local is [message]; the
    module binds [handleError] only: nothing binds [err]. *)
Definition binding_of_err : option Error := None.

(** What [handleError] does once no classification above line 95 applied:
    it reads [err.response]. *)
Definition blocked_site_check : Completion ErrorResponse :=
  match binding_of_err with
  | None => Throw (ReferenceError "err")
  | Some err =>
      if response_status_is err 403 || response_status_is err 999
      then Throw (ReferenceError "res")
      else Normal (mkErrorResponse 500 "Internal Server Error"
                     "An unexpected error occurred during analysis")
  end.

Definition handleError (error : Error) : Completion ErrorResponse :=
  let message :=
    if nonempty (err_message error) then err_message error
    else "Unknown error occurred" in
  (* Invalid URL errors (400) *)
  if includes message "Invalid URL" ||
     includes message "URL must be" ||
     includes message "Missing required field" ||
     includes message "Invalid input type"
  then Normal (mkErrorResponse 400 "Invalid Request" message)
  (* Timeout errors (408) *)
  else if includes message "timeout" ||
          includes message "did not respond in time" ||
          code_is error "ECONNABORTED" ||
          code_is error "ETIMEDOUT"
  then Normal (mkErrorResponse 408 "Request Timeout"
                 "The request timed out while fetching the URL")
  (* Blocked/Forbidden errors (403) *)
  else if includes message "Connection refused" ||
          includes message "blocked" ||
          code_is error "ECONNREFUSED" ||
          response_status_is error 403
  then Normal (mkErrorResponse 403 "Access Forbidden"
                 "The website is blocking access or refusing connections")
  (* Empty HTML errors (422) *)
  else if includes message "Empty HTML" ||
          includes message "No content"
  then Normal (mkErrorResponse 422 "Unprocessable Content"
                 "The page returned empty or no HTML content")
  (* Large page errors (413) *)
  else if includes message "too large" ||
          includes message "exceeds size limit"
  then Normal (mkErrorResponse 413 "Payload Too Large"
                 "The page content exceeds the maximum allowed size")
  (* DNS/Network errors (502) *)
  else if includes message "DNS lookup failed" ||
          includes message "Unable to resolve" ||
          code_is error "ENOTFOUND" ||
          code_is error "EAI_AGAIN"
  then Normal (mkErrorResponse 502 "Bad Gateway"
                 "Unable to resolve the domain name")
  (* Server errors from target (502) *)
  else if response_status_ge error 500
  then Normal (mkErrorResponse 502 "Bad Gateway"
                 match err_response error with
                 | Some s => "Target server returned error: " ++ N_to_string s
                 | None => ""
                 end)
  (* Client errors from target (400) *)
  else if response_status_ge error 400 && response_status_lt error 500
  then Normal (mkErrorResponse 400 "Bad Request"
                 match err_response error with
                 | Some s => "Target server returned error: " ++ N_to_string s
                 | None => ""
                 end)
  else blocked_site_check.

End ErrorHandler.

(* ================================================================== *)
(** ** services/seoService.js *)
(* ================================================================== *)

Module SeoService.

(** *** The HTTP client *)

(** The response object of axios, as far as [fetchHTML] reads it: the status,
    the [content-type] header and the body. *)
Record Response : Type := mkResponse {
  resp_status : N;
  resp_content_type : option string;
  resp_data : Value
}.

(** What the transfer of one GET comes to: a reply from the target (after
    redirects), or a transport failure, which axios reports as an error
    carrying a [code] and no [response]. *)
Inductive Transfer : Type :=
| Replied (r : Response)
| Failed (e : Error).

(** The [validateStatus] option handed to axios. *)
Definition validateStatus (status : N) : bool :=
  ((200 <=? status) && (status <? 300))%N.

(** [axios.get] under that option: a reply whose status the option accepts
    resolves; any other reply rejects with an error whose [response] is the
    reply (and whose [code] is axios's ERR_BAD_REQUEST for 4xx,
    ERR_BAD_RESPONSE for 5xx); a transport failure rejects with its error. *)
Definition axios_get (t : Transfer) : Completion Response :=
  match t with
  | Replied r =>
      if validateStatus (resp_status r) then Normal r
      else Throw (mkError "AxiosError"
                    ("Request failed with status code " ++ N_to_string (resp_status r))
                    (match (resp_status r / 100)%N with
                     | 4%N => Some "ERR_BAD_REQUEST"
                     | 5%N => Some "ERR_BAD_RESPONSE"
                     | _ => None
                     end)
                    (Some (resp_status r)))
  | Failed e => Throw e
  end.

(** *** fetchHTML *)

(** 10MB in bytes. *)
Definition MAX_SIZE : N := 10 * 1024 * 1024.

(** The [try] block. *)
Definition fetchHTML_try (t : Transfer) : Completion string :=
  response <- axios_get t ;;
  (* Ensure response is HTML/text *)
  let contentType :=
    match or_else (resp_content_type response) (Some "") with
    | Some c => c
    | None => ""
    end in
  if negb (includes contentType "text/html") &&
     negb (includes contentType "text/plain")
  then Throw (new_Error "URL does not return HTML content")
  else
    let html := resp_data response in
    (* Check for empty HTML *)
    match html with
    | VString s =>
        if negb (truthy html) || (String.length (trim s) =? 0)%nat
        then Throw (new_Error "Empty HTML: Page returned no content")
        (* Check for large pages (10MB limit) *)
        else if (MAX_SIZE <? N.of_nat (String.length s))%N
        then Throw (new_Error "Page too large: Content exceeds 10MB limit")
        else Normal s
    | _ => Throw (new_Error "Empty HTML: Page returned no content")
    end.

(** The [catch] block: the error it throws for the error it caught. *)
Definition fetchHTML_catch (error : Error) : Error :=
  (* Handle timeout *)
  if code_is error "ECONNABORTED"
  then new_Error "Request timeout: URL did not respond in time"
  (* Handle network errors *)
  else if code_is error "ENOTFOUND" || code_is error "EAI_AGAIN"
  then new_Error "DNS lookup failed: Unable to resolve domain name"
  else if code_is error "ECONNREFUSED"
  then new_Error "Connection refused: Server is not accepting connections"
  else if code_is error "ETIMEDOUT"
  then new_Error "Connection timeout: Unable to establish connection"
  else
    match err_response error with
    (* Handle HTTP errors *)
    | Some status =>
        if ((400 <=? status) && (status <? 500))%N
        then new_Error ("Client error: Server returned " ++ N_to_string status
                        ++ " status code")
        else if (500 <=? status)%N
        then new_Error ("Server error: Server returned " ++ N_to_string status
                        ++ " status code")
        else new_Error ("HTTP error: Server returned " ++ N_to_string status
                        ++ " status code")
    | None =>
        (* Handle SSL errors (if rejectUnauthorized was true) *)
        if code_is error "UNABLE_TO_VERIFY_LEAF_SIGNATURE" ||
           code_is error "CERT_HAS_EXPIRED" ||
           code_is error "SELF_SIGNED_CERT_IN_CHAIN"
        then new_Error "SSL certificate error: Invalid or expired certificate"
        (* Handle other axios errors *)
        else if nonempty (err_message error)
        then new_Error ("Failed to fetch URL: " ++ err_message error)
        (* Fallback for unknown errors *)
        else new_Error "Unknown error occurred while fetching URL"
    end.

(** [fetchHTML(url)], given what the transfer for [url] comes to: every
    error of the [try] block, those it throws itself included, passes through
    the [catch] block. *)
Definition fetchHTML (t : Transfer) : Completion string :=
  match fetchHTML_try t with
  | Normal html => Normal html
  | Throw error => Throw (fetchHTML_catch error)
  end.

(** *** The parsed document *)

(** The tree [cheerio.load] builds: text nodes, and elements with a tag
    name, attributes (the parser lower-cases tag and attribute names, keeps
    attribute values as written, and keeps the first of a repeated
    attribute) and children. *)
Inductive Node : Type :=
| Text (data : string)
| Element (tag : string) (attribs : list (string * string)) (children : list Node).

(** The elements of a subtree in document order, which is the order of a
    selection. *)
Fixpoint elements (n : Node) : list Node :=
  match n with
  | Text _ => []
  | Element _ _ children => n :: flat_map elements children
  end.

(** [.text()]: the text of the node's descendants, concatenated. *)
Fixpoint text (n : Node) : string :=
  match n with
  | Text data => data
  | Element _ _ children => String.concat "" (map text children)
  end.

Definition tag_is (t : string) (n : Node) : bool :=
  match n with
  | Element t' _ _ => t' =? t
  | Text _ => false
  end.

Fixpoint lookup (name : string) (attribs : list (string * string)) : option string :=
  match attribs with
  | [] => None
  | (k, v) :: rest => if k =? name then Some v else lookup name rest
  end.

(** The attribute of one element, [undefined] when it has none. *)
Definition attribute (name : string) (n : Node) : option string :=
  match n with
  | Element _ attribs _ => lookup name attribs
  | Text _ => None
  end.

(** [$('t')]: the elements of the document with that tag name. *)
Definition select_tag (doc : list Node) (t : string) : list Node :=
  filter (tag_is t) (flat_map elements doc).

(** [$('t[a="v"]')]: the attribute is present and its value is [v],
    compared as written (the selector has no [i] flag and [name] is not one
    of the attributes whose values HTML compares without case). *)
Definition select_tag_attr_eq (doc : list Node) (t a v : string) : list Node :=
  filter (fun n => match attribute a n with
                   | Some v' => v' =? v
                   | None => false
                   end)
         (select_tag doc t).

(** [$('t[a]')]: the attribute is present. *)
Definition select_tag_has_attr (doc : list Node) (t a : string) : list Node :=
  filter (fun n => match attribute a n with
                   | Some _ => true
                   | None => false
                   end)
         (select_tag doc t).

(** [.attr(name)] on a selection: the attribute of its first element. *)
Definition attr (selection : list Node) (name : string) : option string :=
  match selection with
  | [] => None
  | n :: _ => attribute name n
  end.

(** [.first().text()] on a selection: the empty string when it is empty. *)
Definition first_text (selection : list Node) : string :=
  match selection with
  | [] => ""
  | n :: _ => text n
  end.

(** *** parseSEOData *)

Record SeoData : Type := mkSeoData {
  title : option string;
  metaDescription : option string;
  h1Count : nat;
  totalImages : nat;
  imagesMissingAlt : nat;
  totalInternalLinks : nat;
  usesHTTPS : bool
}.

Section Extractor.

(** [new URL(href, base)]: the parsed URL, [None] where it throws. *)
Variable resolve : string -> string -> option URL.

(** The callback of the loop over the images, on the counter. *)
Definition count_missing_alt (imagesMissingAlt : nat) (element : Node) : nat :=
  match attribute "alt" element with
  | None => S imagesMissingAlt
  | Some alt => if trim alt =? "" then S imagesMissingAlt else imagesMissingAlt
  end.

(** The callback of the loop over the links, on the counter. *)
Definition count_internal_link (url baseDomain : string)
    (totalInternalLinks : nat) (element : Node) : nat :=
  match attribute "href" element with
  | None => totalInternalLinks
  | Some href =>
      if negb (nonempty href) then totalInternalLinks
      (* Handle relative URLs *)
      else if startsWith href "/" || startsWith href "./" || startsWith href "../"
      then S totalInternalLinks
      else
        (* Handle absolute URLs *)
        match resolve href url with
        | Some linkUrl =>
            if hostname linkUrl =? baseDomain then S totalInternalLinks
            else totalInternalLinks
        | None => totalInternalLinks   (* Invalid URL format, skip *)
        end
  end.

(** The body of [parseSEOData] after [cheerio.load(html)] and
    [new URL(url)] returned [doc] and [urlObj]. *)
Definition extract (doc : list Node) (url : string) (urlObj : URL) : SeoData :=
  let baseDomain := hostname urlObj in
  (* Extract page title *)
  let title := or_else (Some (trim (first_text (select_tag doc "title")))) None in
  (* Extract meta description *)
  let metaDescription :=
    or_else (attr (select_tag_attr_eq doc "meta" "name" "description") "content")
      (or_else (attr (select_tag_attr_eq doc "meta" "name" "Description") "content")
         None) in
  (* Count H1 tags *)
  let h1Count := List.length (select_tag doc "h1") in
  (* Count total images *)
  let totalImages := List.length (select_tag doc "img") in
  (* Count images missing alt attribute *)
  let imagesMissingAlt := fold_left count_missing_alt (select_tag doc "img") 0 in
  (* Count total internal links *)
  let totalInternalLinks :=
    fold_left (count_internal_link url baseDomain)
      (select_tag_has_attr doc "a" "href") 0 in
  (* Check if site uses HTTPS *)
  let usesHTTPS := protocol urlObj =? "https:" in
  mkSeoData title metaDescription h1Count totalImages imagesMissingAlt
    totalInternalLinks usesHTTPS.

(** [cheerio.load]: the parser, total on strings. *)
Variable load : string -> list Node.

(** [new URL(url)]: the parsed URL, [None] where it throws. *)
Variable parse : string -> option URL.

Definition parseSEOData (html url : string) : Completion SeoData :=
  let doc := load html in
  match parse url with
  | None => Throw TypeError_invalid_url
  | Some urlObj => Normal (extract doc url urlObj)
  end.

End Extractor.

(** *** calculateScore *)

Record Criterion : Type := mkCriterion {
  points : Z;
  message : string
}.

(** Define scoring criteria (easy to modify). *)
Module SCORING.
Definition TITLE_PRESENT := mkCriterion 20 "Page has a title tag".
Definition META_DESCRIPTION_PRESENT := mkCriterion 20 "Page has a meta description".
Definition H1_PRESENT := mkCriterion 20 "Page has at least one H1 tag".
Definition IMAGES_HAVE_ALT := mkCriterion 20 "All images have alt text".
Definition USES_HTTPS := mkCriterion 20 "Page uses HTTPS".
End SCORING.

(** The locals of [calculateScore], which its statements update in turn. *)
Record Locals : Type := mkLocals {
  checks : list string;
  issues : list string;
  passedChecks : list string;
  score : Z
}.

(** [score += c.points; passedChecks.push(c.message)]. *)
Definition award (c : Criterion) (l : Locals) : Locals :=
  mkLocals (checks l) (issues l) (passedChecks l ++ [message c]) (score l + points c).

(** [issues.push(msg)]. *)
Definition report (msg : string) (l : Locals) : Locals :=
  mkLocals (checks l) (issues l ++ [msg]) (passedChecks l) (score l).

(** A string-or-null field in a condition. *)
Definition present (field : option string) : bool :=
  match field with
  | Some s => nonempty s
  | None => false
  end.

(** Check 1: Title present (20 points). *)
Definition check_title (seoData : SeoData) (l : Locals) : Locals :=
  if present (title seoData)
  then award SCORING.TITLE_PRESENT l
  else report "Missing page title tag" l.

(** Check 2: Meta description present (20 points). *)
Definition check_meta_description (seoData : SeoData) (l : Locals) : Locals :=
  if present (metaDescription seoData)
  then award SCORING.META_DESCRIPTION_PRESENT l
  else report "Missing meta description" l.

(** Check 3: At least one H1 (20 points). *)
Definition check_h1 (seoData : SeoData) (l : Locals) : Locals :=
  if (1 <=? h1Count seoData)%nat
  then award SCORING.H1_PRESENT l
  else report "No H1 tags found on the page" l.

(** Check 4: Images with alt text (20 points).
    Pass if no images OR all images have alt text. *)
Definition check_images (seoData : SeoData) (l : Locals) : Locals :=
  if (totalImages seoData =? 0)%nat || (imagesMissingAlt seoData =? 0)%nat
  then award SCORING.IMAGES_HAVE_ALT l
  else report (nat_to_string (imagesMissingAlt seoData) ++ " image(s) missing alt text") l.

(** Check 5: HTTPS usage (20 points). *)
Definition check_https (seoData : SeoData) (l : Locals) : Locals :=
  if usesHTTPS seoData
  then award SCORING.USES_HTTPS l
  else report "Page does not use HTTPS" l.

(** Ensure score never exceeds 100. *)
Definition clamp (l : Locals) : Locals :=
  mkLocals (checks l) (issues l) (passedChecks l) (Z.min (score l) 100).

(** The object [calculateScore] returns. *)
Record ScoreResult : Type := mkScoreResult {
  res_score : Z;
  res_issues : list string;
  res_passedChecks : list string
}.

Definition calculateScore (seoData : SeoData) : ScoreResult :=
  let l := mkLocals [] [] [] 0 in
  let l := check_title seoData l in
  let l := check_meta_description seoData l in
  let l := check_h1 seoData l in
  let l := check_images seoData l in
  let l := check_https seoData l in
  let l := clamp l in
  mkScoreResult (score l) (issues l) (passedChecks l).

End SeoService.

(* ================================================================== *)
(** ** routes/analyze.js *)
(* ================================================================== *)

Module Analyze.

Import SeoService.

(** The JSON bodies the handler writes. *)
Inductive Body : Type :=
| ErrorBody (error message : string)
| AnalysisBody (url : string) (seoScore : Z)
    (checks issues passedChecks : list string).

(** What a request comes to: a response with its status and body, or an
    error that escapes the handler (the promise of the [async] callback
    rejects and the handler has written no response). *)
Inductive Outcome : Type :=
| Responded (status : N) (body : Body)
| Escaped (e : Error).

(** The [catch] block of the analysis: centralized error handling. *)
Definition respond_error (error : Error) : Outcome :=
  match ErrorHandler.handleError error with
  | Normal errorResponse =>
      Responded (ErrorHandler.status errorResponse)
        (ErrorBody (ErrorHandler.error errorResponse)
                   (ErrorHandler.message errorResponse))
  | Throw e => Escaped e
  end.

Section Handler.

(** The libraries and the network the handler runs against. *)
Variable parse : string -> option URL.
Variable resolve : string -> string -> option URL.
Variable load : string -> list Node.
Variable transfer : string -> Transfer.

(** Perform SEO analysis: the second [try] statement. *)
Definition analysis (url : string) : Outcome :=
  match
    html <- fetchHTML (transfer url) ;;
    seoData <- parseSEOData resolve load parse html url ;;
    Normal (calculateScore seoData)
  with
  | Normal scoreResult =>
      (* Combine all checks (passed + issues) for complete overview *)
      let checks := res_passedChecks scoreResult ++ res_issues scoreResult in
      Responded 200
        (AnalysisBody url (res_score scoreResult) checks
           (res_issues scoreResult) (res_passedChecks scoreResult))
  | Throw error => respond_error error
  end.

(** [router.post('/', ...)] on the parsed request body. *)
Definition post (body : list (string * Value)) : Outcome :=
  let url := get body "url" in
  (* Validate URL exists *)
  if negb (truthy url)
  then Responded 400
         (ErrorBody "Missing required field" "URL is required in request body")
  else
    match url with
    | VString url =>
        (* Validate URL format *)
        match parse url with
        | Some urlObj =>
            (* Ensure URL uses http or https protocol *)
            if negb (protocol urlObj =? "http:") && negb (protocol urlObj =? "https:")
            then Responded 400
                   (ErrorBody "Invalid URL protocol" "URL must use http or https protocol")
            else analysis url
        | None =>
            Responded 400 (ErrorBody "Invalid URL format" "URL must be a valid URL")
        end
    (* Validate URL is a string *)
    | _ => Responded 400 (ErrorBody "Invalid input type" "URL must be a string")
    end.

(** What [const { url } = req.body] throws when [req.body] is [undefined]
    or [null]; the statement is outside every [try]. *)
Definition TypeError_destructure (what : string) : Error :=
  mkError "TypeError"
    ("Cannot destructure property 'url' of 'req.body' as it is " ++ what ++ ".")
    None None.

(** [router.post('/', ...)] on [req.body] as the handler finds it:
    destructuring [undefined] or [null] throws; an object gives its [url]
    property; an array or a primitive has no [url] property. *)
Definition router_post (req_body : Value) : Outcome :=
  match req_body with
  | VUndefined => Escaped (TypeError_destructure "undefined")
  | VNull => Escaped (TypeError_destructure "null")
  | VObject fields => post fields
  | _ => post []
  end.

End Handler.

End Analyze.

(* ================================================================== *)
(** ** Reference readings, invariants and sample inputs *)
(* ================================================================== *)

Module Samples.

Import SeoService.

(** Lower-casing of ASCII letters, for comparing names without case. *)
Definition lower (c : ascii) : ascii :=
  let n := nat_of_ascii c in
  if ((65 <=? n) && (n <=? 90))%nat then ascii_of_nat (n + 32) else c.

Fixpoint toLowerCase (s : string) : string :=
  match s with
  | EmptyString => EmptyString
  | String c s' => String (lower c) (toLowerCase s')
  end.

(** The first meta element whose name attribute equals "description" when
    lower-cased. *)
Definition first_meta_ignoring_case (doc : list Node) : option Node :=
  find (fun n => tag_is "meta" n &&
                 match attribute "name" n with
                 | Some v => toLowerCase v =? "description"
                 | None => false
                 end)
       (flat_map elements doc).

(** The meta description read without case: the content attribute of that
    element, absent when the document has no such element. *)
Definition metaDescription_ignoring_case (doc : list Node) : option string :=
  match first_meta_ignoring_case doc with
  | Some n => attribute "content" n
  | None => None
  end.

(** The first meta element whose name attribute is [v] as written. *)
Definition first_meta_named (doc : list Node) (v : string) : option Node :=
  find (fun n => tag_is "meta" n &&
                 match attribute "name" n with
                 | Some v' => v' =? v
                 | None => false
                 end)
       (flat_map elements doc).

(** Its content attribute, when there is such an element and the attribute
    is a non-empty string. *)
Definition nonempty_content (n : option Node) : option string :=
  match n with
  | Some n =>
      match attribute "content" n with
      | Some c => if nonempty c then Some c else None
      | None => None
      end
  | None => None
  end.

(** A page: title, upper-case DESCRIPTION meta, one heading. *)
Definition page_upper_case_meta : list Node :=
  [Element "html" []
     [Element "head" []
        [Element "title" [] [Text "Test"];
         Element "meta" [("name", "DESCRIPTION"); ("content", "desc")] []];
      Element "body" [] [Element "h1" [] [Text "H"]]]].

(** A page with two images, one of them without alt text. *)
Definition page_two_images : list Node :=
  [Element "html" []
     [Element "head" [] [Element "title" [] [Text "Test"]];
      Element "body" []
        [Element "img" [("src", "a.jpg"); ("alt", "x")] [];
         Element "img" [("src", "b.jpg")] []]]].

(** A complete page: title, description, heading, image with alt text. *)
Definition page_complete : list Node :=
  [Element "html" []
     [Element "head" []
        [Element "title" [] [Text "Test"];
         Element "meta" [("name", "description"); ("content", "desc")] []];
      Element "body" []
        [Element "h1" [] [Text "H"];
         Element "img" [("src", "a.jpg"); ("alt", "x")] []]]].

Definition example_com : URL := mkURL "https:" "example.com".

(** A URL parser that knows one site, under three schemes. *)
Definition parse (s : string) : option URL :=
  if s =? "https://example.com" then Some example_com
  else if s =? "http://example.com" then Some (mkURL "http:" "example.com")
  else if s =? "ftp://example.com" then Some (mkURL "ftp:" "example.com")
  else None.

Definition resolve (href base : string) : option URL :=
  match parse href with
  | Some u => Some u
  | None => parse base
  end.

(** A parser that knows one text. *)
Definition load (html : string) : list Node :=
  if html =? "<title>Test</title>..." then page_complete else [].

(** A target that serves that text as HTML. *)
Definition serves_page (url : string) : Transfer :=
  Replied (mkResponse 200 (Some "text/html; charset=utf-8")
             (VString "<title>Test</title>...")).

(** A target that answers with a blank body. *)
Definition serves_blank (url : string) : Transfer :=
  Replied (mkResponse 200 (Some "text/html") (VString "  ")).

(** A target that answers with a body of one no-break space. *)
Definition serves_nbsp (url : string) : Transfer :=
  Replied (mkResponse 200 (Some "text/html") (VString (String (ascii_of_nat 160) ""))).

(** A target that answers with a blank body and a JSON content type. *)
Definition serves_blank_json (url : string) : Transfer :=
  Replied (mkResponse 200 (Some "application/json") (VString "  ")).

(** A target that answers every request with the given status. *)
Definition serves_status (status : N) (url : string) : Transfer :=
  Replied (mkResponse status (Some "text/html") (VString "<h1>error</h1>")).

(** The character occurs in the string. *)
Fixpoint mentions (c : ascii) (s : string) : bool :=
  match s with
  | EmptyString => false
  | String c' s' => (c' =? c)%char || mentions c s'
  end.

Definition is_digit (c : ascii) : bool :=
  let n := nat_of_ascii c in ((48 <=? n) && (n <=? 57))%nat.

(** The message of the error [fetchHTML] throws for a reply whose status
    axios rejected. *)
Definition status_error_message (status : N) : string :=
  if ((400 <=? status) && (status <? 500))%N
  then "Client error: Server returned " ++ N_to_string status ++ " status code"
  else if (500 <=? status)%N
  then "Server error: Server returned " ++ N_to_string status ++ " status code"
  else "HTTP error: Server returned " ++ N_to_string status ++ " status code".

(** The error axios raises for a reply whose status it rejected. *)
Definition axios_status_error (r : Response) : Error :=
  match axios_get (Replied r) with
  | Throw e => e
  | Normal _ => new_Error ""
  end.

(** What is left of [handleError] for an error whose message and [code]
    match none of its phrases and codes: the tests on [error.response]. *)
Definition by_status_only (error : Error) : Completion ErrorHandler.ErrorResponse :=
  if ErrorHandler.response_status_is error 403
  then Normal (ErrorHandler.mkErrorResponse 403 "Access Forbidden"
                 "The website is blocking access or refusing connections")
  else if ErrorHandler.response_status_ge error 500
  then Normal (ErrorHandler.mkErrorResponse 502 "Bad Gateway"
                 match err_response error with
                 | Some s => "Target server returned error: " ++ N_to_string s
                 | None => ""
                 end)
  else if ErrorHandler.response_status_ge error 400 &&
          ErrorHandler.response_status_lt error 500
  then Normal (ErrorHandler.mkErrorResponse 400 "Bad Request"
                 match err_response error with
                 | Some s => "Target server returned error: " ++ N_to_string s
                 | None => ""
                 end)
  else ErrorHandler.blocked_site_check.

(** The labels [handleError] can return. *)
Definition classifier_labels : list string :=
  ["Invalid Request"; "Request Timeout"; "Access Forbidden";
   "Unprocessable Content"; "Payload Too Large"; "Bad Gateway";
   "Bad Request"; "Internal Server Error"].

(** A request body whose url is the given value. *)
Definition body_with_url (v : Value) : list (string * Value) := [("url", v)].

(** The extractor followed by the scorer. *)
Definition extract_and_score
    (resolve : string -> string -> option URL) (load : string -> list Node)
    (parse : string -> option URL) (html url : string)
  : Completion (SeoData * ScoreResult) :=
  seoData <- parseSEOData resolve load parse html url ;;
  Normal (seoData, calculateScore seoData).

(** What the five checks keep true of the locals: every passed check added
    20 points and one message, every failed check one issue. *)
Definition tally (n : nat) (l : Locals) : Prop :=
  score l = (20 * Z.of_nat (List.length (passedChecks l)))%Z /\
  (List.length (passedChecks l) + List.length (issues l) = n)%nat.

(** The locals after the fifth check, before the clamp. *)
Definition after_checks (d : SeoData) : Locals :=
  check_https d (check_images d (check_h1 d
    (check_meta_description d (check_title d (mkLocals [] [] [] 0))))).

(** A statement of the scorer that adds one message, to one of the two
    lists, and leaves the other list as it was. *)
Definition adds_one_message (step : Locals -> Locals) : Prop :=
  forall l,
    (exists msg, passedChecks (step l) = passedChecks l ++ [msg] /\
                 issues (step l) = issues l) \/
    (exists msg, issues (step l) = issues l ++ [msg] /\
                 passedChecks (step l) = passedChecks l).

End Samples.

(* ================================================================== *)
(** ** Tables and further sample inputs *)
(* ================================================================== *)

Module Tables.

Import SeoService.

(** The test of the loop over the images: the [alt] attribute is missing
    or blank. *)
Definition lacks_alt (element : Node) : bool :=
  match attribute "alt" element with
  | None => true
  | Some alt => trim alt =? ""
  end.

(** The test of the loop over the links: the [href] is not empty and either
    starts like a relative path or resolves to the page's host. *)
Definition is_internal (resolve : string -> string -> option URL)
    (url baseDomain : string) (element : Node) : bool :=
  match attribute "href" element with
  | None => false
  | Some href =>
      nonempty href &&
      (startsWith href "/" || startsWith href "./" || startsWith href "../" ||
       match resolve href url with
       | Some linkUrl => hostname linkUrl =? baseDomain
       | None => false
       end)
  end.

(** One row for each check of the scorer, in the order of the statements:
    the condition, the message on a pass, the message on a failure. *)
Definition verdicts (seoData : SeoData) : list (bool * (string * string)) :=
  [ (present (title seoData),
      ("Page has a title tag", "Missing page title tag"));
    (present (metaDescription seoData),
      ("Page has a meta description", "Missing meta description"));
    ((1 <=? h1Count seoData)%nat,
      ("Page has at least one H1 tag", "No H1 tags found on the page"));
    ((totalImages seoData =? 0)%nat || (imagesMissingAlt seoData =? 0)%nat,
      ("All images have alt text",
       (nat_to_string (imagesMissingAlt seoData) ++ " image(s) missing alt text")%string));
    (usesHTTPS seoData,
      ("Page uses HTTPS", "Page does not use HTTPS")) ].

(** The points of the checks that pass, read off the record: 20 for a
    title, 20 for a meta description, 20 for at least one h1, 20 when there
    are no images or none lacks alt text, 20 for HTTPS. *)
Definition points_earned (seoData : SeoData) : Z :=
  (if present (title seoData) then 20 else 0) +
  (if present (metaDescription seoData) then 20 else 0) +
  (if (1 <=? h1Count seoData)%nat then 20 else 0) +
  (if (totalImages seoData =? 0)%nat || (imagesMissingAlt seoData =? 0)%nat
   then 20 else 0) +
  (if usesHTTPS seoData then 20 else 0).

(** The number of checks that pass, read off the record. *)
Definition checks_passing (seoData : SeoData) : nat :=
  (if present (title seoData) then 1 else 0) +
  (if present (metaDescription seoData) then 1 else 0) +
  (if (1 <=? h1Count seoData)%nat then 1 else 0) +
  (if (totalImages seoData =? 0)%nat || (imagesMissingAlt seoData =? 0)%nat
   then 1 else 0) +
  (if usesHTTPS seoData then 1 else 0).

Definition passed (row : bool * (string * string)) : bool := fst row.
Definition failed (row : bool * (string * string)) : bool := negb (fst row).
Definition pass_message (row : bool * (string * string)) : string := fst (snd row).
Definition fail_message (row : bool * (string * string)) : string := snd (snd row).

(** The status and label pairs of the classes of [handleError]. *)
Definition classes : list (N * string) :=
  [ (400%N, "Invalid Request"); (408%N, "Request Timeout");
    (403%N, "Access Forbidden"); (422%N, "Unprocessable Content");
    (413%N, "Payload Too Large"); (502%N, "Bad Gateway");
    (400%N, "Bad Request") ].

(** The statuses the handler answers with. *)
Definition answered_statuses : list N :=
  [200%N; 400%N; 403%N; 408%N; 413%N; 422%N; 502%N].

(** The codes [fetchHTML] tests before it looks at the response. *)
Definition network_codes : list string :=
  ["ECONNABORTED"; "ENOTFOUND"; "EAI_AGAIN"; "ECONNREFUSED"; "ETIMEDOUT"].

(** The certificate codes [fetchHTML] tests. *)
Definition certificate_codes : list string :=
  ["UNABLE_TO_VERIFY_LEAF_SIGNATURE"; "CERT_HAS_EXPIRED";
   "SELF_SIGNED_CERT_IN_CHAIN"].

(** A transport failure as axios reports it: a code, a message and no
    response. *)
Definition transport_failure (code msg : string) : Error :=
  mkError "AxiosError" msg (Some code) None.

(** A network on which every transfer fails with the given error. *)
Definition fails_with (e : Error) (url : string) : Transfer := Failed e.

(** A network on which every transfer gets the given reply. *)
Definition replies (r : Response) (url : string) : Transfer := Replied r.

(** The content-type test of [fetchHTML]: the header is there and names
    text/html or text/plain. *)
Definition accepts_content_type (r : Response) : bool :=
  match resp_content_type r with
  | Some ct => includes ct "text/html" || includes ct "text/plain"
  | None => false
  end.

(** A text of [n] letters. *)
Fixpoint letters (n : nat) : string :=
  match n with
  | O => EmptyString
  | S n' => String "a" (letters n')
  end.

(** A page one character longer than the limit. *)
Definition oversized_page : string :=
  String "a" (letters (N.to_nat MAX_SIZE)).

(** A page with three links: a root-relative one, one to another host that
    does not resolve here, and one with an empty target. *)
Definition page_three_links : list Node :=
  [Element "html" []
     [Element "body" []
        [Element "a" [("href", "/about")] [Text "About"];
         Element "a" [("href", "mailto:")] [Text "Mail"];
         Element "a" [("href", "")] [Text "Nowhere"];
         Element "a" [] [Text "Anchor"]]]].

End Tables.

(* ================================================================== *)
(** ** The extractor and the scorer on a store *)
(* ================================================================== *)

(** The two functions once more, with what they mutate made explicit: the
    counters of [parseSEOData], which its callbacks increment, and the arrays
    of [calculateScore], to which it pushes and which it returns by
    reference.  A call runs in a world: the store that earlier calls left,
    the clock and the source of random numbers. *)
Module Run.

Import SeoService.

Inductive Cell : Type :=
| Num (n : nat)
| Arr (elements : list string).

Record World : Type := mkWorld {
  cells : nat -> Cell;   (* what each reference holds *)
  next : nat;            (* the references below it are taken *)
  clock : N;             (* what [Date.now()] would return *)
  entropy : N            (* what [Math.random()] would draw from *)
}.

Definition M (A : Type) : Type := World -> A * World.

Definition ret {A : Type} (a : A) : M A := fun w => (a, w).

Definition seq {A B : Type} (m : M A) (k : A -> M B) : M B :=
  fun w => k (fst (m w)) (snd (m w)).

Definition store (r : nat) (c : Cell) (w : World) : World :=
  mkWorld (fun r' => if (r' =? r)%nat then c else cells w r')
    (next w) (clock w) (entropy w).

(** A new variable or array: a fresh reference. *)
Definition alloc (c : Cell) : M nat :=
  fun w => (next w,
            mkWorld (fun r' => if (r' =? next w)%nat then c else cells w r')
              (S (next w)) (clock w) (entropy w)).

Definition number (w : World) (r : nat) : nat :=
  match cells w r with
  | Num n => n
  | Arr _ => 0%nat
  end.

Definition items (w : World) (r : nat) : list string :=
  match cells w r with
  | Arr elements => elements
  | Num _ => []
  end.

(** [x++]. *)
Definition increment (r : nat) : M unit :=
  fun w => (tt, store r (Num (S (number w r))) w).

(** [a.push(msg)]. *)
Definition push (r : nat) (msg : string) : M unit :=
  fun w => (tt, store r (Arr (items w r ++ [msg])) w).

Definition read_number (r : nat) : M nat := fun w => (number w r, w).

(** [selection.each(callback)]. *)
Fixpoint each {A : Type} (selection : list A) (callback : A -> M unit) : M unit :=
  match selection with
  | [] => ret tt
  | x :: rest => seq (callback x) (fun _ => each rest callback)
  end.

(** The object [calculateScore] returns: the score and the two arrays. *)
Record ScoreRefs : Type := mkScoreRefs {
  ref_score : Z;
  ref_issues : nat;
  ref_passedChecks : nat
}.

(** The result as a caller reads it in a world. *)
Definition read_result (w : World) (r : ScoreRefs) : ScoreResult :=
  mkScoreResult (ref_score r) (items w (ref_issues r)) (items w (ref_passedChecks r)).

Section Functions.

Variable resolve : string -> string -> option URL.
Variable load : string -> list Node.
Variable parse : string -> option URL.

(** The callback of the loop over the images, on the variable
    [imagesMissingAlt]. *)
Definition missing_alt_callback (imagesMissingAlt : nat) (element : Node) : M unit :=
  match attribute "alt" element with
  | None => increment imagesMissingAlt
  | Some alt => if trim alt =? "" then increment imagesMissingAlt else ret tt
  end.

(** The callback of the loop over the links, on the variable
    [totalInternalLinks]. *)
Definition internal_link_callback (url baseDomain : string)
    (totalInternalLinks : nat) (element : Node) : M unit :=
  match attribute "href" element with
  | None => ret tt
  | Some href =>
      if negb (nonempty href) then ret tt
      (* Handle relative URLs *)
      else if startsWith href "/" || startsWith href "./" || startsWith href "../"
      then increment totalInternalLinks
      else
        (* Handle absolute URLs *)
        match resolve href url with
        | Some linkUrl =>
            if hostname linkUrl =? baseDomain
            then increment totalInternalLinks
            else ret tt
        | None => ret tt   (* Invalid URL format, skip *)
        end
  end.

Definition parseSEOData_run (html url : string) : M (Completion SeoData) :=
  let doc := load html in
  match parse url with
  | None => ret (Throw TypeError_invalid_url)
  | Some urlObj =>
      let baseDomain := hostname urlObj in
      (* Extract page title *)
      let title := or_else (Some (trim (first_text (select_tag doc "title")))) None in
      (* Extract meta description *)
      let metaDescription :=
        or_else (attr (select_tag_attr_eq doc "meta" "name" "description") "content")
          (or_else (attr (select_tag_attr_eq doc "meta" "name" "Description") "content")
             None) in
      (* Count H1 tags *)
      let h1Count := List.length (select_tag doc "h1") in
      (* Count total images *)
      let totalImages := List.length (select_tag doc "img") in
      (* Count images missing alt attribute *)
      seq (alloc (Num 0)) (fun imagesMissingAlt =>
      seq (each (select_tag doc "img") (missing_alt_callback imagesMissingAlt)) (fun _ =>
      (* Count total internal links *)
      seq (alloc (Num 0)) (fun totalInternalLinks =>
      seq (each (select_tag_has_attr doc "a" "href")
             (internal_link_callback url baseDomain totalInternalLinks)) (fun _ =>
      (* Check if site uses HTTPS *)
      let usesHTTPS := protocol urlObj =? "https:" in
      seq (read_number imagesMissingAlt) (fun imagesMissingAlt =>
      seq (read_number totalInternalLinks) (fun totalInternalLinks =>
      ret (Normal (mkSeoData title metaDescription h1Count totalImages
                     imagesMissingAlt totalInternalLinks usesHTTPS))))))))
  end.

(** One check of the scorer: the new score after its [if] statement. *)
Definition check_run (condition : bool) (c : Criterion) (issue : string)
    (issues passedChecks : nat) (score : Z) : M Z :=
  if condition
  then seq (push passedChecks (message c)) (fun _ => ret (score + points c)%Z)
  else seq (push issues issue) (fun _ => ret score).

Definition calculateScore_run (seoData : SeoData) : M ScoreRefs :=
  seq (alloc (Arr [])) (fun checks =>
  seq (alloc (Arr [])) (fun issues =>
  seq (alloc (Arr [])) (fun passedChecks =>
  let score := 0%Z in
  (* Check 1: Title present (20 points) *)
  seq (check_run (present (title seoData)) SCORING.TITLE_PRESENT
         "Missing page title tag" issues passedChecks score) (fun score =>
  (* Check 2: Meta description present (20 points) *)
  seq (check_run (present (metaDescription seoData)) SCORING.META_DESCRIPTION_PRESENT
         "Missing meta description" issues passedChecks score) (fun score =>
  (* Check 3: At least one H1 (20 points) *)
  seq (check_run (1 <=? h1Count seoData)%nat SCORING.H1_PRESENT
         "No H1 tags found on the page" issues passedChecks score) (fun score =>
  (* Check 4: Images with alt text (20 points) *)
  seq (check_run ((totalImages seoData =? 0)%nat || (imagesMissingAlt seoData =? 0)%nat)
         SCORING.IMAGES_HAVE_ALT
         (nat_to_string (imagesMissingAlt seoData) ++ " image(s) missing alt text")
         issues passedChecks score) (fun score =>
  (* Check 5: HTTPS usage (20 points) *)
  seq (check_run (usesHTTPS seoData) SCORING.USES_HTTPS
         "Page does not use HTTPS" issues passedChecks score) (fun score =>
  (* Ensure score never exceeds 100 *)
  let score := Z.min score 100 in
  ret (mkScoreRefs score issues passedChecks))))))))).

(** The extractor, then the scorer on its signals. *)
Definition extract_and_score_run (html url : string)
  : M (Completion (SeoData * ScoreRefs)) :=
  seq (parseSEOData_run html url) (fun seoData =>
  match seoData with
  | Normal d => seq (calculateScore_run d) (fun r => ret (Normal (d, r)))
  | Throw e => ret (Throw e)
  end).

(** What a run from a world returns, and the world it leaves. *)
Definition result_of (html url : string) (w : World)
  : Completion (SeoData * ScoreRefs) :=
  fst (extract_and_score_run html url w).

Definition world_after (html url : string) (w : World) : World :=
  snd (extract_and_score_run html url w).

End Functions.

(** What a caller sees of an outcome in a world: the signals and the
    contents of the result. *)
Definition observed (w : World) (out : Completion (SeoData * ScoreRefs))
  : Completion (SeoData * ScoreResult) :=
  match out with
  | Normal (d, r) => Normal (d, read_result w r)
  | Throw e => Throw e
  end.

(** The cells below the bound hold in the second world what they hold in
    the first. *)
Definition kept_below (bound : nat) (w w' : World) : Prop :=
  forall r, (r < bound)%nat -> cells w' r = cells w r.

(** The arrays and the score of a run hold what the locals of the
    functional reading hold. *)
Definition agrees (w : World) (issues passedChecks : nat) (score : Z)
    (l : Locals) : Prop :=
  items w issues = SeoService.issues l /\
  items w passedChecks = SeoService.passedChecks l /\
  score = SeoService.score l.

(** A callback that steps one counter and touches nothing else. *)
Definition steps_counter {A : Type} (c : nat) (step : nat -> A -> nat)
    (callback : A -> M unit) : Prop :=
  forall x w,
    next (snd (callback x w)) = next w /\
    number (snd (callback x w)) c = step (number w c) x /\
    forall r, r <> c -> cells (snd (callback x w)) r = cells w r.

End Run.

(* ================================================================== *)
(** ** The scorer *)
(* ================================================================== *)

Module ScorerFacts.

Import SeoService Samples Tables.

Lemma tally_award c l n :
  points c = 20%Z -> tally n l -> tally (S n) (award c l).
Proof.
  intros Hp [Hs Hn]. unfold tally, award; cbn [score passedChecks issues].
  rewrite length_app; cbn [List.length]. split; [rewrite Hs, Hp; lia | lia].
Qed.

Lemma tally_report msg l n :
  tally n l -> tally (S n) (report msg l).
Proof.
  intros [Hs Hn]. unfold tally, report; cbn [score passedChecks issues].
  rewrite length_app; cbn [List.length]. split; [exact Hs | lia].
Qed.

Create HintDb tally.
#[local] Hint Resolve tally_award tally_report : tally.

Ltac step_tally f :=
  intros; unfold f;
  match goal with
  | |- context [if ?c then _ else _] => destruct c
  end; auto with tally.

Lemma tally_check_title d l n : tally n l -> tally (S n) (check_title d l).
Proof. step_tally check_title. Qed.

Lemma tally_check_meta_description d l n :
  tally n l -> tally (S n) (check_meta_description d l).
Proof. step_tally check_meta_description. Qed.

Lemma tally_check_h1 d l n : tally n l -> tally (S n) (check_h1 d l).
Proof. step_tally check_h1. Qed.

Lemma tally_check_images d l n : tally n l -> tally (S n) (check_images d l).
Proof. step_tally check_images. Qed.

Lemma tally_check_https d l n : tally n l -> tally (S n) (check_https d l).
Proof. step_tally check_https. Qed.

Lemma tally_initial : tally 0 (mkLocals [] [] [] 0).
Proof. split; reflexivity. Qed.

Lemma tally_after_checks d : tally 5 (after_checks d).
Proof.
  unfold after_checks.
  apply tally_check_https, tally_check_images, tally_check_h1,
    tally_check_meta_description, tally_check_title, tally_initial.
Qed.

Lemma calculateScore_after_checks d :
  calculateScore d =
  mkScoreResult (Z.min (score (after_checks d)) 100)
    (issues (after_checks d)) (passedChecks (after_checks d)).
Proof. reflexivity. Qed.

(** C6: for every record of signals, the two lists the scorer returns hold
    five messages between them: each of the five checks adds one message to
    one of the lists, and to that one only. *)
Theorem calculateScore_five_messages (d : SeoData) :
  (List.length (res_passedChecks (calculateScore d)) +
   List.length (res_issues (calculateScore d)) = 5)%nat /\
  adds_one_message (check_title d) /\
  adds_one_message (check_meta_description d) /\
  adds_one_message (check_h1 d) /\
  adds_one_message (check_images d) /\
  adds_one_message (check_https d).
Proof.
  split.
  - rewrite calculateScore_after_checks; simpl.
    exact (proj2 (tally_after_checks d)).
  - unfold adds_one_message, check_title, check_meta_description, check_h1,
      check_images, check_https.
    repeat split; intros l;
      match goal with
      | |- context [if ?c then _ else _] => destruct c
      end; simpl; [left | right | left | right | left | right | left | right | left | right];
      eexists; split; reflexivity.
Qed.

(** C4: for every record of signals the score is 20 points for each check
    the record passes (a title, a meta description, at least one h1, no
    image without alt text, HTTPS), clamped to 100; each passed check is one
    message in the passed checks; so the score lies between 0 and 100 and is
    a multiple of 20. *)
Theorem calculateScore_score (d : SeoData) :
  res_score (calculateScore d) = Z.min (points_earned d) 100 /\
  points_earned d = (20 * Z.of_nat (checks_passing d))%Z /\
  List.length (res_passedChecks (calculateScore d)) = checks_passing d /\
  res_score (calculateScore d) =
    Z.min (20 * Z.of_nat (List.length (res_passedChecks (calculateScore d)))) 100 /\
  (0 <= res_score (calculateScore d) <= 100)%Z /\
  (20 | res_score (calculateScore d))%Z.
Proof.
  assert (Hlen : List.length (res_passedChecks (calculateScore d)) = checks_passing d).
  { unfold calculateScore, check_title, check_meta_description, check_h1,
      check_images, check_https, checks_passing.
    destruct (present (title d)), (present (metaDescription d)),
      (1 <=? h1Count d)%nat,
      ((totalImages d =? 0)%nat || (imagesMissingAlt d =? 0)%nat),
      (usesHTTPS d); reflexivity. }
  assert (Hpts : points_earned d = (20 * Z.of_nat (checks_passing d))%Z).
  { unfold points_earned, checks_passing.
    destruct (present (title d)), (present (metaDescription d)),
      (1 <=? h1Count d)%nat,
      ((totalImages d =? 0)%nat || (imagesMissingAlt d =? 0)%nat),
      (usesHTTPS d); reflexivity. }
  rewrite Hpts, Hlen. clear Hpts.
  rewrite calculateScore_after_checks in *. cbn [res_score res_passedChecks] in *.
  destruct (tally_after_checks d) as [Hs Hn].
  rewrite Hs, Hlen in *.
  assert (Hle : (checks_passing d <= 5)%nat) by lia.
  repeat split; try reflexivity; try lia.
  rewrite Z.min_l by lia.
  exists (Z.of_nat (checks_passing d)); lia.
Qed.

(** The condition of the fourth check, as a proposition. *)
Lemma images_condition d :
  (totalImages d =? 0)%nat || (imagesMissingAlt d =? 0)%nat = true <->
  totalImages d = 0%nat \/ imagesMissingAlt d = 0%nat.
Proof.
  rewrite orb_true_iff, !Nat.eqb_eq. reflexivity.
Qed.

(** The message of the fourth check is not the message of another check. *)
Lemma images_message_only_from_check_images d :
  In "All images have alt text" (res_passedChecks (calculateScore d)) <->
  (totalImages d =? 0)%nat || (imagesMissingAlt d =? 0)%nat = true.
Proof.
  unfold calculateScore, check_title, check_meta_description, check_h1,
    check_images, check_https.
  destruct (present (title d)), (present (metaDescription d)),
    (1 <=? h1Count d)%nat,
    ((totalImages d =? 0)%nat || (imagesMissingAlt d =? 0)%nat),
    (usesHTTPS d); cbn;
    (split; [intros H; repeat destruct H as [H | H]; try discriminate H;
             solve [reflexivity | contradiction]
            | intros H; solve [discriminate H | tauto ] ]).
Qed.

Lemma failed_image_check_reported d :
  (totalImages d =? 0)%nat || (imagesMissingAlt d =? 0)%nat = false ->
  In (nat_to_string (imagesMissingAlt d) ++ " image(s) missing alt text")%string
     (res_issues (calculateScore d)).
Proof.
  intros H.
  unfold calculateScore, check_https, check_images. rewrite H.
  destruct (usesHTTPS d);
    cbn [clamp report award issues checks passedChecks score res_issues];
    rewrite ?in_app_iff; cbn [In]; tauto.
Qed.

(** C5: for every record of signals the image check passes exactly when
    there are no images or no image lacks alt text; on a pass it appends
    "All images have alt text" to the passed checks, on a failure it appends
    the count of images without alt text, in decimal, followed by
    " image(s) missing alt text" to the issues: "1 image(s) missing alt text"
    for a page with two images of which one has no alt attribute. *)
Theorem check_images_spec (d : SeoData) :
  (In "All images have alt text" (res_passedChecks (calculateScore d)) <->
   totalImages d = 0%nat \/ imagesMissingAlt d = 0%nat) /\
  (forall l, totalImages d = 0%nat \/ imagesMissingAlt d = 0%nat ->
     passedChecks (check_images d l) = passedChecks l ++ ["All images have alt text"] /\
     issues (check_images d l) = issues l /\
     score (check_images d l) = (score l + 20)%Z) /\
  (forall l, ~ (totalImages d = 0%nat \/ imagesMissingAlt d = 0%nat) ->
     issues (check_images d l) =
       issues l ++ [(nat_to_string (imagesMissingAlt d) ++ " image(s) missing alt text")%string] /\
     passedChecks (check_images d l) = passedChecks l /\
     score (check_images d l) = score l) /\
  (~ (totalImages d = 0%nat \/ imagesMissingAlt d = 0%nat) ->
     In (nat_to_string (imagesMissingAlt d) ++ " image(s) missing alt text")%string
        (res_issues (calculateScore d))) /\
  (forall resolve url urlObj,
     In "1 image(s) missing alt text"
        (res_issues (calculateScore (extract resolve page_two_images url urlObj)))).
Proof.
  split; [| split; [| split; [| split]]].
  - rewrite images_message_only_from_check_images. apply images_condition.
  - intros l H. apply images_condition in H.
    unfold check_images. rewrite H. repeat split.
  - intros l H. rewrite <- images_condition in H.
    apply not_true_is_false in H.
    unfold check_images. rewrite H. repeat split.
  - intros H. rewrite <- images_condition in H.
    apply not_true_is_false in H.
    apply failed_image_check_reported, H.
  - intros resolve url urlObj.
    exact (failed_image_check_reported
             (extract resolve page_two_images url urlObj) eq_refl).
Qed.

End ScorerFacts.

(* ================================================================== *)
(** ** Strings *)
(* ================================================================== *)

Module StringFacts.

Import Samples.

Lemma mentions_append c a b :
  mentions c (a ++ b) = mentions c a || mentions c b.
Proof.
  induction a as [| x a IH]; simpl; [reflexivity |].
  rewrite IH. apply orb_assoc.
Qed.

Lemma prefix_mentions c n : forall s,
  String.prefix n s = true -> mentions c n = true -> mentions c s = true.
Proof.
  induction n as [| x n IH]; intros s Hp Hm; [discriminate Hm |].
  destruct s as [| y s]; [discriminate Hp |].
  cbn [String.prefix] in Hp.
  destruct (ascii_dec x y) as [-> | _]; [| discriminate Hp].
  cbn [mentions] in *. apply orb_true_iff in Hm. apply orb_true_iff.
  destruct Hm as [Hm | Hm]; [left; exact Hm | right; apply IH; assumption].
Qed.

(** A string includes another only if it mentions each of its characters. *)
Lemma includes_mentions c n : forall s,
  includes s n = true -> mentions c n = true -> mentions c s = true.
Proof.
  induction s as [| y s IH]; intros Hi Hm.
  - cbn [includes] in Hi. rewrite orb_false_r in Hi.
    exact (prefix_mentions c n _ Hi Hm).
  - cbn [includes] in Hi. apply orb_true_iff in Hi.
    destruct Hi as [Hp | Hi]; [exact (prefix_mentions c n _ Hp Hm) |].
    cbn [mentions]. rewrite (IH Hi Hm). apply orb_true_r.
Qed.

Lemma includes_absent c s n :
  mentions c n = true -> mentions c s = false -> includes s n = false.
Proof.
  intros Hn Hs. destruct (includes s n) eqn:E; [| reflexivity].
  rewrite (includes_mentions c n s E Hn) in Hs. discriminate.
Qed.

Lemma digits_of_uint c : forall u,
  mentions c (NilEmpty.string_of_uint u) = true -> is_digit c = true.
Proof.
  induction u; cbn [NilEmpty.string_of_uint mentions]; intros H;
    try discriminate;
    apply orb_true_iff in H; destruct H as [H | H]; auto;
    apply Ascii.eqb_eq in H; subst c; reflexivity.
Qed.

(** The decimal form of a number mentions digits only. *)
Lemma digits_of_N c n :
  is_digit c = false -> mentions c (N_to_string n) = false.
Proof.
  intros Hd. destruct (mentions c (N_to_string n)) eqn:E; [| reflexivity].
  assert (is_digit c = true); [| congruence].
  unfold N_to_string, NilZero.string_of_uint in E.
  destruct (N.to_uint n) eqn:Eu;
    try (apply (digits_of_uint c) with (u := N.to_uint n); rewrite Eu; exact E).
  cbn [mentions] in E. rewrite orb_false_r in E.
  apply Ascii.eqb_eq in E; subst c; reflexivity.
Qed.

Lemma between_mentions c a b n :
  mentions c a = false -> is_digit c = false -> mentions c b = false ->
  mentions c (a ++ N_to_string n ++ b) = false.
Proof.
  intros Ha Hd Hb.
  rewrite !mentions_append, Ha, Hb, (digits_of_N c n Hd). reflexivity.
Qed.

(** A body of white space only trims to the empty string. *)
Lemma trim_only_whitespace s : only_whitespace s = true -> trim s = "".
Proof.
  unfold trim. induction s as [| c s IH]; simpl; [reflexivity |].
  intros H. apply andb_true_iff in H. destruct H as [Hc Hs].
  rewrite Hc. exact (IH Hs).
Qed.

End StringFacts.

(* ================================================================== *)
(** ** Fetching and classifying *)
(* ================================================================== *)

Module FetchFacts.

Import SeoService ErrorHandler Analyze Samples StringFacts.

(** [includes s n] is false by a character of [n] that [s] lacks. *)
Ltac lacks Hav c n :=
  rewrite (includes_absent c _ n eq_refl (Hav c ltac:(cbn [In]; tauto))).

(** An error whose message has none of the phrases [handleError] looks for
    and whose [code] is none of its codes is classified by its response. *)
Lemma handleError_by_status_only (e : Error) :
  nonempty (err_message e) = true ->
  (forall c, In c ["I"; "U"; "M"; "m"; "p"; "b"; "E"; "N"; "g"; "x"; "D"]%char ->
             mentions c (err_message e) = false) ->
  includes (err_message e) "Connection refused" = false ->
  (forall c, In c ["ECONNABORTED"; "ETIMEDOUT"; "ECONNREFUSED";
                   "ENOTFOUND"; "EAI_AGAIN"] -> code_is e c = false) ->
  handleError e = by_status_only e.
Proof.
  intros Hne Hav Hcr Hcode. unfold handleError, by_status_only.
  rewrite Hne, Hcr.
  lacks Hav "I"%char "Invalid URL".
  lacks Hav "U"%char "URL must be".
  lacks Hav "M"%char "Missing required field".
  lacks Hav "I"%char "Invalid input type".
  lacks Hav "m"%char "timeout".
  lacks Hav "p"%char "did not respond in time".
  lacks Hav "b"%char "blocked".
  lacks Hav "E"%char "Empty HTML".
  lacks Hav "N"%char "No content".
  lacks Hav "g"%char "too large".
  lacks Hav "x"%char "exceeds size limit".
  lacks Hav "D"%char "DNS lookup failed".
  lacks Hav "U"%char "Unable to resolve".
  rewrite !Hcode by (cbn [In]; tauto).
  reflexivity.
Qed.

(** An error without [code] and [response] whose message has none of the
    phrases reaches the line that reads [err]. *)
Lemma handleError_reads_err msg :
  nonempty msg = true ->
  (forall c, In c ["I"; "U"; "M"; "m"; "p"; "f"; "b"; "E"; "N"; "g"; "x"; "D"]%char ->
             mentions c msg = false) ->
  handleError (new_Error msg) = Throw (ReferenceError "err").
Proof.
  intros Hne Hav.
  rewrite handleError_by_status_only; [reflexivity | exact Hne | | | ].
  - intros c Hin. apply Hav. cbn [In] in *. tauto.
  - apply (includes_absent "f"%char); [reflexivity |].
    apply Hav. cbn [In]. tauto.
  - intros c _. reflexivity.
Qed.

Lemma status_error_message_nonempty status :
  nonempty (status_error_message status) = true.
Proof.
  unfold status_error_message.
  destruct ((400 <=? status) && (status <? 500))%N;
    [| destruct (500 <=? status)%N]; reflexivity.
Qed.

Lemma status_error_message_lacks status c :
  In c ["I"; "U"; "M"; "m"; "p"; "f"; "b"; "E"; "N"; "g"; "x"; "D"]%char ->
  mentions c (status_error_message status) = false.
Proof.
  intros Hin. unfold status_error_message.
  cbn [In] in Hin.
  destruct ((400 <=? status) && (status <? 500))%N;
    [| destruct (500 <=? status)%N];
    repeat (destruct Hin as [<- | Hin]; [apply between_mentions; reflexivity |]);
    contradiction.
Qed.

(** A reply whose status axios rejected: what [fetchHTML] throws. *)
Lemma fetchHTML_rejected_status r :
  validateStatus (resp_status r) = false ->
  fetchHTML (Replied r) = Throw (new_Error (status_error_message (resp_status r))).
Proof.
  intros Hv. unfold fetchHTML, fetchHTML_try, axios_get. rewrite Hv.
  cbn [bind]. unfold fetchHTML_catch, status_error_message.
  cbn [err_response].
  assert (Hcode : forall c, In c ["ECONNABORTED"; "ENOTFOUND"; "EAI_AGAIN";
                                   "ECONNREFUSED"; "ETIMEDOUT"] ->
            code_is (mkError "AxiosError"
                       ("Request failed with status code " ++ N_to_string (resp_status r))
                       match (resp_status r / 100)%N with
                       | 4%N => Some "ERR_BAD_REQUEST"
                       | 5%N => Some "ERR_BAD_RESPONSE"
                       | _ => None
                       end (Some (resp_status r))) c = false).
  { intros c Hin. unfold code_is; cbn [err_code In] in *.
    destruct (resp_status r / 100)%N as [| [[[]|[]|]|[[]|[]|]|]];
      repeat (destruct Hin as [<- | Hin]; [reflexivity |]); contradiction. }
  rewrite !Hcode by (cbn [In]; tauto). cbn [orb].
  destruct ((400 <=? resp_status r) && (resp_status r <? 500))%N;
    [| destruct (500 <=? resp_status r)%N]; reflexivity.
Qed.

Lemma axios_status_error_shape r :
  validateStatus (resp_status r) = false ->
  err_message (axios_status_error r) =
    ("Request failed with status code " ++ N_to_string (resp_status r))%string /\
  err_response (axios_status_error r) = Some (resp_status r) /\
  forall c, In c ["ECONNABORTED"; "ETIMEDOUT"; "ECONNREFUSED";
                  "ENOTFOUND"; "EAI_AGAIN"] ->
            code_is (axios_status_error r) c = false.
Proof.
  intros Hv. unfold axios_status_error, axios_get. rewrite Hv.
  repeat split. intros c Hin.
  unfold code_is; cbn [err_code In] in *.
  destruct (resp_status r / 100)%N as [| [[[]|[]|]|[[]|[]|]|]];
    repeat (destruct Hin as [<- | Hin]; [reflexivity |]); contradiction.
Qed.

Lemma axios_status_error_message_lacks r c :
  In c ["I"; "U"; "M"; "m"; "p"; "C"; "b"; "E"; "N"; "g"; "x"; "D"]%char ->
  mentions c ("Request failed with status code " ++ N_to_string (resp_status r)) = false.
Proof.
  intros Hin. cbn [In] in Hin.
  assert (Hd : is_digit c = false)
    by (repeat (destruct Hin as [<- | Hin]; [reflexivity |]); contradiction).
  rewrite mentions_append, (digits_of_N c _ Hd), orb_false_r.
  repeat (destruct Hin as [<- | Hin]; [reflexivity |]); contradiction.
Qed.

(** The error axios raised, which carries the response, is classified by
    the status. *)
Lemma handleError_axios_status_error r :
  validateStatus (resp_status r) = false ->
  handleError (axios_status_error r) = by_status_only (axios_status_error r).
Proof.
  intros Hv. destruct (axios_status_error_shape r Hv) as (Hmsg & _ & Hcode).
  apply handleError_by_status_only.
  - rewrite Hmsg. reflexivity.
  - rewrite Hmsg. intros c Hin. apply axios_status_error_message_lacks.
    cbn [In] in *. tauto.
  - rewrite Hmsg. apply (includes_absent "C"%char); [reflexivity |].
    apply axios_status_error_message_lacks. cbn [In]. tauto.
  - exact Hcode.
Qed.

(** So the classes of [handleError] for a target's status do apply to the
    error axios raised: 502 for a status of 500 or more, 400 for a 4xx
    status other than 403. *)
Lemma handleError_axios_status_classes r :
  validateStatus (resp_status r) = false ->
  ((500 <= resp_status r)%N ->
   handleError (axios_status_error r) =
   Normal (mkErrorResponse 502 "Bad Gateway"
             ("Target server returned error: " ++ N_to_string (resp_status r)))) /\
  ((400 <= resp_status r < 500)%N -> resp_status r <> 403%N ->
   handleError (axios_status_error r) =
   Normal (mkErrorResponse 400 "Bad Request"
             ("Target server returned error: " ++ N_to_string (resp_status r)))).
Proof.
  intros Hv. rewrite (handleError_axios_status_error r Hv).
  destruct (axios_status_error_shape r Hv) as (_ & Hresp & _).
  unfold by_status_only, response_status_is, response_status_ge, response_status_lt.
  rewrite Hresp. split.
  - intros H5.
    replace (resp_status r =? 403)%N with false by (symmetry; apply N.eqb_neq; lia).
    replace (500 <=? resp_status r)%N with true by (symmetry; apply N.leb_le; lia).
    reflexivity.
  - intros [H4 H5] H403.
    replace (resp_status r =? 403)%N with false by (symmetry; apply N.eqb_neq; lia).
    replace (500 <=? resp_status r)%N with false by (symmetry; apply N.leb_gt; lia).
    replace (400 <=? resp_status r)%N with true by (symmetry; apply N.leb_le; lia).
    replace (resp_status r <? 500)%N with true by (symmetry; apply N.ltb_lt; lia).
    reflexivity.
Qed.

(** C1, where the code departs from it: for a reply whose status is outside
    2xx, [fetchHTML] throws a new error that holds the status in its message
    only, without the response; [handleError] finds none of its phrases in
    that message, finds no response to classify by status, and reads the
    undeclared [err]: the handler answers neither 502 "Bad Gateway" nor
    400 "Bad Request", it writes no response at all. *)
Theorem rejected_status_escapes
    (parse : string -> option URL) (resolve : string -> string -> option URL)
    (load : string -> list Node) (transfer : string -> Transfer)
    (url : string) (r : Response) :
  transfer url = Replied r ->
  validateStatus (resp_status r) = false ->
  fetchHTML (transfer url) =
    Throw (new_Error (status_error_message (resp_status r))) /\
  handleError (new_Error (status_error_message (resp_status r))) =
    Throw (ReferenceError "err") /\
  analysis parse resolve load transfer url = Escaped (ReferenceError "err").
Proof.
  intros Ht Hv.
  assert (Hf := fetchHTML_rejected_status r Hv).
  assert (Hh : handleError (new_Error (status_error_message (resp_status r))) =
               Throw (ReferenceError "err")).
  { apply handleError_reads_err.
    - apply status_error_message_nonempty.
    - intros c. apply status_error_message_lacks. }
  rewrite Ht. repeat split; [exact Hf | exact Hh |].
  unfold analysis. rewrite Ht, Hf. cbn [bind].
  unfold respond_error. rewrite Hh. reflexivity.
Qed.

(** A target that answers 500: the request ends without a response. *)
Lemma rejected_status_escapes_500 :
  fetchHTML (serves_status 500 "https://example.com") =
    Throw (new_Error "Server error: Server returned 500 status code") /\
  handleError (new_Error "Server error: Server returned 500 status code") =
    Throw (ReferenceError "err") /\
  analysis Samples.parse Samples.resolve Samples.load (serves_status 500)
    "https://example.com" = Escaped (ReferenceError "err").
Proof.
  exact (rejected_status_escapes Samples.parse Samples.resolve Samples.load
           (serves_status 500) "https://example.com"
           (mkResponse 500 (Some "text/html") (VString "<h1>error</h1>"))
           eq_refl eq_refl).
Defined.

(** The content type that passes the check of [fetchHTML]. *)
Lemma accepted_content_type ct :
  includes ct "text/html" || includes ct "text/plain" = true ->
  match or_else (Some ct) (Some "") with
  | Some c => c
  | None => ""
  end = ct.
Proof.
  intros H. unfold or_else, nonempty.
  destruct (String.eqb_spec ct "") as [-> | _]; [discriminate H | reflexivity].
Qed.

(** C8, as the code has it: when the reply has a 2xx status and a content
    type with text/html or text/plain, and its body is a string that is empty
    or holds white space only, the fetch fails with the empty-content error,
    and the pipeline classifies it as 422 "Unprocessable Content" with the
    message "The page returned empty or no HTML content". *)
Theorem blank_body_unprocessable
    (parse : string -> option URL) (resolve : string -> string -> option URL)
    (load : string -> list Node) (transfer : string -> Transfer)
    (url : string) (r : Response) (ct body : string) :
  transfer url = Replied r ->
  validateStatus (resp_status r) = true ->
  resp_content_type r = Some ct ->
  includes ct "text/html" || includes ct "text/plain" = true ->
  resp_data r = VString body ->
  only_whitespace body = true ->
  fetchHTML_try (transfer url) =
    Throw (new_Error "Empty HTML: Page returned no content") /\
  fetchHTML (transfer url) =
    Throw (new_Error "Failed to fetch URL: Empty HTML: Page returned no content") /\
  handleError (new_Error "Failed to fetch URL: Empty HTML: Page returned no content") =
    Normal (mkErrorResponse 422 "Unprocessable Content"
              "The page returned empty or no HTML content") /\
  analysis parse resolve load transfer url =
    Responded 422 (ErrorBody "Unprocessable Content"
                     "The page returned empty or no HTML content").
Proof.
  intros Ht Hv Hct Hok Hdata Hblank.
  assert (Htry : fetchHTML_try (transfer url) =
                 Throw (new_Error "Empty HTML: Page returned no content")).
  { rewrite Ht. unfold fetchHTML_try, axios_get. rewrite Hv. cbn [bind].
    rewrite Hct, (accepted_content_type ct Hok).
    apply orb_true_iff in Hok.
    replace (negb (includes ct "text/html") && negb (includes ct "text/plain"))
      with false
      by (destruct Hok as [-> | ->]; [reflexivity | apply eq_sym, andb_false_r]).
    rewrite Hdata, (trim_only_whitespace body Hblank).
    cbn [String.length Nat.eqb]. rewrite orb_true_r. reflexivity. }
  assert (Hfetch : fetchHTML (transfer url) =
            Throw (new_Error "Failed to fetch URL: Empty HTML: Page returned no content")).
  { unfold fetchHTML. rewrite Htry. reflexivity. }
  split; [exact Htry | split; [exact Hfetch | split; [reflexivity |]]].
  unfold analysis. rewrite Hfetch. reflexivity.
Qed.

(** A target that answers 200 with two spaces as its page. *)
Lemma blank_body_unprocessable_two_spaces :
  analysis Samples.parse Samples.resolve Samples.load serves_blank
    "https://example.com" =
  Responded 422 (ErrorBody "Unprocessable Content"
                   "The page returned empty or no HTML content").
Proof.
  exact (proj2 (proj2 (proj2
    (blank_body_unprocessable Samples.parse Samples.resolve Samples.load
       serves_blank "https://example.com"
       (mkResponse 200 (Some "text/html") (VString "  ")) "text/html" "  "
       eq_refl eq_refl eq_refl eq_refl eq_refl eq_refl)))).
Defined.

(** A body of one no-break space is blank as well. *)
Lemma nbsp_body_unprocessable :
  only_whitespace (String (ascii_of_nat 160) "") = true /\
  trim (String (ascii_of_nat 160) " x ") = "x" /\
  analysis Samples.parse Samples.resolve Samples.load serves_nbsp
    "https://example.com" =
  Responded 422 (ErrorBody "Unprocessable Content"
                   "The page returned empty or no HTML content").
Proof. repeat split. Qed.

(** C8 as stated fails: a blank body under a content type that names
    neither text/html nor text/plain is not answered 422; the content-type
    test comes first, and the request ends without a response. *)
Lemma blank_body_other_content_type :
  only_whitespace "  " = true /\
  validateStatus 200 = true /\
  analysis Samples.parse Samples.resolve Samples.load serves_blank_json
    "https://example.com" = Escaped (ReferenceError "err") /\
  analysis Samples.parse Samples.resolve Samples.load serves_blank_json
    "https://example.com" <>
  Responded 422 (ErrorBody "Unprocessable Content"
                   "The page returned empty or no HTML content").
Proof.
  split; [reflexivity | split; [reflexivity | split; [reflexivity |]]].
  discriminate.
Qed.

End FetchFacts.

(* ================================================================== *)
(** ** The request handler *)
(* ================================================================== *)

Module HandlerFacts.

Import SeoService ErrorHandler Analyze Samples.

Lemma handleError_labels e resp :
  handleError e = Normal resp -> In (error resp) classifier_labels.
Proof.
  unfold handleError, blocked_site_check, binding_of_err.
  repeat match goal with
         | |- context [if ?c then _ else _] => destruct c
         end;
    intros H; inversion H; subst; cbn; tauto.
Qed.

Lemma respond_error_labels e st label msg :
  respond_error e = Responded st (ErrorBody label msg) ->
  In label classifier_labels.
Proof.
  unfold respond_error. destruct (handleError e) as [resp |] eqn:E; [| discriminate].
  intros H; inversion H; subst. exact (handleError_labels e resp E).
Qed.

Section Handler.

Variable parse : string -> option URL.
Variable resolve : string -> string -> option URL.
Variable load : string -> list Node.
Variable transfer : string -> Transfer.

(** An analysis ends in the success body, in a classified error, or in an
    escaped error. *)
Lemma analysis_outcomes url :
  (exists seoData,
     analysis parse resolve load transfer url =
     Responded 200
       (AnalysisBody url (res_score (calculateScore seoData))
          (res_passedChecks (calculateScore seoData) ++ res_issues (calculateScore seoData))
          (res_issues (calculateScore seoData))
          (res_passedChecks (calculateScore seoData)))) \/
  (exists e, analysis parse resolve load transfer url = respond_error e).
Proof.
  unfold Analyze.analysis.
  destruct (fetchHTML (transfer url)) as [html | e]; cbn [bind]; [| right; eauto].
  destruct (parseSEOData resolve load parse html url) as [seoData | e];
    cbn [bind]; [left; eauto | right; eauto].
Qed.

(** C2, where the code departs from it: a body without a url, with a null
    or empty url, or with a url that is not a string is answered with status
    400, but the label is "Missing required field" (a falsy url) or
    "Invalid input type" (any other value that is not a string), and in no
    case "Invalid Request". *)
Theorem invalid_url_value_label (body : list (string * Value)) :
  match get body "url" with
  | VString (String _ _) => False
  | _ => True
  end ->
  exists label msg,
    post parse resolve load transfer body = Responded 400 (ErrorBody label msg) /\
    (label = "Missing required field" \/ label = "Invalid input type") /\
    label <> "Invalid Request".
Proof.
  intros H. unfold Analyze.post.
  destruct (get body "url") as [| | b | n | s | items | fields] eqn:E;
    try (destruct b); try (destruct n as [| neg | neg m ex]; [| | destruct m]);
    try (destruct s; [| contradiction]);
    cbn [truthy negb String.eqb N.eqb];
    do 2 eexists; (split; [reflexivity | split; [tauto | discriminate]]).
Qed.

(** C10: a url that is falsy is answered by the missing-field branch, with
    status 400 and the label "Missing required field", whether or not it is
    a string (so for 0, false and NaN); the label "Invalid input type" is
    the answer exactly for the values that are truthy and not strings. *)
Theorem falsy_url_is_missing_field (body : list (string * Value)) :
  (truthy (get body "url") = false ->
   post parse resolve load transfer body =
   Responded 400 (ErrorBody "Missing required field" "URL is required in request body")) /\
  (truthy (get body "url") = true -> is_string (get body "url") = false ->
   post parse resolve load transfer body =
   Responded 400 (ErrorBody "Invalid input type" "URL must be a string")) /\
  (forall st msg,
     post parse resolve load transfer body = Responded st (ErrorBody "Invalid input type" msg) ->
     truthy (get body "url") = true /\ is_string (get body "url") = false) /\
  (forall v,
     In v [VNumber (Finite false 0 0); VBool false; VNumber NaN] ->
     is_string v = false /\
     post parse resolve load transfer (body_with_url v) =
     Responded 400 (ErrorBody "Missing required field" "URL is required in request body")).
Proof.
  split; [| split; [| split]].
  - intros H. unfold Analyze.post. rewrite H. reflexivity.
  - intros Ht Hs. unfold Analyze.post. rewrite Ht. cbn [negb].
    destruct (get body "url"); try reflexivity; discriminate Hs.
  - intros st msg. unfold Analyze.post.
    destruct (truthy (get body "url")) eqn:Ht; cbn [negb]; [| discriminate].
    destruct (get body "url") as [| | b | n | url | items | fields];
      try (intros _; split; reflexivity).
    destruct (parse url) as [urlObj |]; [| discriminate].
    destruct (negb (protocol urlObj =? "http:") && negb (protocol urlObj =? "https:"));
      [discriminate |].
    destruct (analysis_outcomes url) as [[d ->] | [e ->]]; [discriminate |].
    intros H. apply respond_error_labels in H.
    cbn in H. repeat (destruct H as [H | H]; [discriminate H |]). contradiction.
  - intros v Hin. cbn [In] in Hin.
    repeat (destruct Hin as [<- | Hin]; [split; reflexivity |]). contradiction.
Qed.

(** C7: in every success response the checks are the passed checks followed
    by the issues, each list in the scorer's order; a success response has
    status 200 and carries the scorer's result. *)
Theorem checks_are_passed_then_issues
    (body : list (string * Value)) (st : N) (url : string) (seoScore : Z)
    (checks issues passedChecks : list string) :
  post parse resolve load transfer body = Responded st (AnalysisBody url seoScore checks issues passedChecks) ->
  checks = passedChecks ++ issues /\
  st = 200%N /\
  get body "url" = VString url /\
  exists seoData,
    passedChecks = res_passedChecks (calculateScore seoData) /\
    issues = res_issues (calculateScore seoData) /\
    seoScore = res_score (calculateScore seoData).
Proof.
  unfold Analyze.post.
  destruct (truthy (get body "url")); cbn [negb]; [| discriminate].
  destruct (get body "url") as [| | b | n | u | items | fields]; try discriminate.
  destruct (parse u) as [urlObj |]; [| discriminate].
  destruct (negb (protocol urlObj =? "http:") && negb (protocol urlObj =? "https:"));
    [discriminate |].
  destruct (analysis_outcomes u) as [[d ->] | [e ->]].
  - intros H; inversion H; subst. repeat split. exists d. repeat split.
  - unfold respond_error. destruct (handleError e); discriminate.
Qed.

End Handler.

(** A body without a url. *)
Lemma invalid_url_value_label_empty_body :
  exists label msg,
    Analyze.post Samples.parse Samples.resolve Samples.load serves_page [] =
    Responded 400 (ErrorBody label msg) /\
    (label = "Missing required field" \/ label = "Invalid input type") /\
    label <> "Invalid Request".
Proof.
  exact (invalid_url_value_label Samples.parse Samples.resolve Samples.load
           serves_page [] I).
Defined.

(** The complete page, served over https. *)
Lemma checks_are_passed_then_issues_complete_page :
  Analyze.post Samples.parse Samples.resolve Samples.load serves_page
    (body_with_url (VString "https://example.com")) =
  Responded 200
    (AnalysisBody "https://example.com" 100
       ["Page has a title tag"; "Page has a meta description";
        "Page has at least one H1 tag"; "All images have alt text";
        "Page uses HTTPS"]
       []
       ["Page has a title tag"; "Page has a meta description";
        "Page has at least one H1 tag"; "All images have alt text";
        "Page uses HTTPS"]) /\
  ["Page has a title tag"; "Page has a meta description";
   "Page has at least one H1 tag"; "All images have alt text";
   "Page uses HTTPS"] =
  ["Page has a title tag"; "Page has a meta description";
   "Page has at least one H1 tag"; "All images have alt text";
   "Page uses HTTPS"] ++ [].
Proof.
  split; [reflexivity |].
  exact (proj1
    (checks_are_passed_then_issues Samples.parse Samples.resolve Samples.load
       serves_page (body_with_url (VString "https://example.com"))
       200 "https://example.com" 100 _ _ _ eq_refl)).
Defined.

End HandlerFacts.

(* ================================================================== *)
(** ** The extractor *)
(* ================================================================== *)

Module ExtractorFacts.

Import SeoService Samples.

(** The first element of a selection refined twice is the first element of
    the document that passes both tests. *)
Lemma first_of_filter_filter {A : Type} (p q : A -> bool) (l : list A) :
  match filter q (filter p l) with
  | [] => None
  | x :: _ => Some x
  end = find (fun x => p x && q x) l.
Proof.
  induction l as [| a l IH]; cbn [filter find]; [reflexivity |].
  destruct (p a); cbn [filter andb]; [destruct (q a); [reflexivity |] |]; exact IH.
Qed.

Lemma attr_meta_named doc v :
  attr (select_tag_attr_eq doc "meta" "name" v) "content" =
  match first_meta_named doc v with
  | Some n => attribute "content" n
  | None => None
  end.
Proof.
  unfold attr, select_tag_attr_eq, select_tag, first_meta_named.
  rewrite <- first_of_filter_filter.
  destruct (filter _ (filter _ _)); reflexivity.
Qed.

Lemma or_else_nonempty_content n rest :
  or_else match n with
          | Some n => attribute "content" n
          | None => None
          end rest =
  match nonempty_content n with
  | Some c => Some c
  | None => rest
  end.
Proof.
  unfold or_else, nonempty_content.
  destruct n as [n |]; [| reflexivity].
  destruct (attribute "content" n) as [c |]; [| reflexivity].
  destruct (nonempty c); reflexivity.
Qed.

(** The first match of a test that implies another is the first match of
    the other, when the other's first match passes the test. *)
Lemma find_narrower {A : Type} (p q : A -> bool) (l : list A) (x : A) :
  (forall a, q a = true -> p a = true) ->
  find p l = Some x -> q x = true -> find q l = Some x.
Proof.
  intros Hqp. induction l as [| a l IH]; cbn [find]; [discriminate |].
  destruct (p a) eqn:Ep.
  - intros H; inversion H; subst. intros ->. reflexivity.
  - destruct (q a) eqn:Eq; [rewrite (Hqp a Eq) in Ep; discriminate | exact IH].
Qed.

(** C3, as the code has it: the meta description is the content attribute
    of the first meta element whose name is "description" as written, when
    that content is a non-empty string; failing that, the content attribute
    of the first meta element whose name is "Description" as written, when
    non-empty; failing both it is absent.  Where the first meta element that
    is named "description" under any spelling has the lower-case spelling
    and a non-empty content, this is the reading without case. *)
Theorem metaDescription_exact_names
    (resolve : string -> string -> option URL)
    (doc : list Node) (url : string) (urlObj : URL) :
  metaDescription (extract resolve doc url urlObj) =
    match nonempty_content (first_meta_named doc "description") with
    | Some c => Some c
    | None => nonempty_content (first_meta_named doc "Description")
    end /\
  (first_meta_named doc "description" = None ->
   first_meta_named doc "Description" = None ->
   metaDescription (extract resolve doc url urlObj) = None) /\
  (forall n c,
     first_meta_ignoring_case doc = Some n ->
     attribute "name" n = Some "description" ->
     attribute "content" n = Some c -> c <> "" ->
     metaDescription (extract resolve doc url urlObj) = Some c /\
     metaDescription_ignoring_case doc = Some c).
Proof.
  assert (Heq : metaDescription (extract resolve doc url urlObj) =
                match nonempty_content (first_meta_named doc "description") with
                | Some c => Some c
                | None => nonempty_content (first_meta_named doc "Description")
                end).
  { unfold extract; cbn [metaDescription].
    rewrite !attr_meta_named, !or_else_nonempty_content.
    destruct (nonempty_content (first_meta_named doc "description")); [reflexivity |].
    destruct (nonempty_content (first_meta_named doc "Description")); reflexivity. }
  split; [exact Heq | split].
  - intros H1 H2. rewrite Heq, H1, H2. reflexivity.
  - intros n c Hfind Hname Hcontent Hc.
    assert (Hfirst : first_meta_named doc "description" = Some n).
    { unfold first_meta_named.
      apply find_narrower with (2 := Hfind).
      - intros a Ha. apply andb_true_iff in Ha. destruct Ha as [Ht Hn].
        rewrite Ht. cbn [andb].
        destruct (attribute "name" a) as [v |]; [| discriminate].
        apply String.eqb_eq in Hn. subst v. reflexivity.
      - unfold first_meta_ignoring_case in Hfind.
        apply find_some in Hfind. destruct Hfind as [_ Hp].
        apply andb_true_iff in Hp. destruct Hp as [Ht _].
        rewrite Ht, Hname. reflexivity. }
    split.
    + rewrite Heq, Hfirst. unfold nonempty_content. rewrite Hcontent.
      unfold nonempty. destruct (String.eqb_spec c ""); [contradiction | reflexivity].
    + unfold metaDescription_ignoring_case. rewrite Hfind. exact Hcontent.
Qed.

(** C3 as stated fails: a page whose only meta element is named DESCRIPTION
    has a description under the reading without case, and none for the
    extractor. *)
Lemma metaDescription_upper_case_name_ignored :
  metaDescription_ignoring_case page_upper_case_meta = Some "desc" /\
  metaDescription
    (extract Samples.resolve page_upper_case_meta "https://example.com" example_com)
  = None /\
  metaDescription
    (extract Samples.resolve page_upper_case_meta "https://example.com" example_com)
  <> metaDescription_ignoring_case page_upper_case_meta.
Proof.
  split; [reflexivity | split; [reflexivity | discriminate]].
Qed.

End ExtractorFacts.

(* ================================================================== *)
(** ** The scorer, continued *)
(* ================================================================== *)

Module ScorerTable.

Import SeoService Samples Tables.

(** X1: the scorer's lists are read off the table of the five checks: the
    passed checks are the pass messages of the rows whose condition holds,
    the issues are the failure messages of the other rows, both in the order
    of the rows, and the score is 20 for every row whose condition holds. *)
Theorem calculateScore_by_table (d : SeoData) :
  res_passedChecks (calculateScore d) = map pass_message (filter passed (verdicts d)) /\
  res_issues (calculateScore d) = map fail_message (filter failed (verdicts d)) /\
  res_score (calculateScore d) =
    (20 * Z.of_nat (List.length (filter passed (verdicts d))))%Z.
Proof.
  unfold calculateScore, check_title, check_meta_description, check_h1,
    check_images, check_https, verdicts.
  destruct (present (title d)), (present (metaDescription d)),
    (1 <=? h1Count d)%nat,
    ((totalImages d =? 0)%nat || (imagesMissingAlt d =? 0)%nat),
    (usesHTTPS d); repeat split.
Qed.

(** X2: the score is 100 exactly when the scorer reports no issue, and 0
    exactly when no check passed. *)
Theorem perfect_score_iff_no_issues (d : SeoData) :
  (res_score (calculateScore d) = 100%Z <-> res_issues (calculateScore d) = []) /\
  (res_score (calculateScore d) = 0%Z <-> res_passedChecks (calculateScore d) = []).
Proof.
  rewrite ScorerFacts.calculateScore_after_checks.
  cbn [res_score res_issues res_passedChecks].
  destruct (ScorerFacts.tally_after_checks d) as [Hs Hn].
  rewrite Hs. split; split; intros H.
  - apply length_zero_iff_nil. lia.
  - rewrite H in Hn. cbn [List.length] in Hn. lia.
  - apply length_zero_iff_nil. lia.
  - rewrite H. reflexivity.
Qed.

(** Without HTTPS the last check fails, whatever the page holds. *)
Lemma score_without_https d :
  usesHTTPS d = false ->
  (res_score (calculateScore d) <= 80)%Z /\
  In "Page does not use HTTPS" (res_issues (calculateScore d)).
Proof.
  intros H.
  unfold calculateScore, check_title, check_meta_description, check_h1,
    check_images, check_https. rewrite H.
  destruct (present (title d)), (present (metaDescription d)),
    (1 <=? h1Count d)%nat,
    ((totalImages d =? 0)%nat || (imagesMissingAlt d =? 0)%nat);
    cbn; split; solve [lia | tauto].
Qed.

End ScorerTable.

(* ================================================================== *)
(** ** The extractor, continued *)
(* ================================================================== *)

Module ExtractorCounts.

Import SeoService Samples Tables.

(** A loop that bumps a counter on a test counts the elements that pass. *)
Lemma fold_left_count {A : Type} (p : A -> bool) (step : nat -> A -> nat) :
  (forall n x, step n x = if p x then S n else n) ->
  forall l k, fold_left step l k = (k + List.length (filter p l))%nat.
Proof.
  intros Hstep. induction l as [| x l IH]; intros k; cbn [fold_left filter].
  - cbn [List.length]. lia.
  - rewrite IH, Hstep. destruct (p x); cbn [List.length]; lia.
Qed.

Lemma count_missing_alt_test n element :
  count_missing_alt n element = if lacks_alt element then S n else n.
Proof.
  unfold count_missing_alt, lacks_alt.
  destruct (attribute "alt" element); reflexivity.
Qed.

Lemma count_internal_link_test resolve url baseDomain n element :
  count_internal_link resolve url baseDomain n element =
  if is_internal resolve url baseDomain element then S n else n.
Proof.
  unfold count_internal_link, is_internal.
  destruct (attribute "href" element) as [href |]; [| reflexivity].
  destruct (nonempty href); cbn [negb andb]; [| reflexivity].
  destruct (startsWith href "/" || startsWith href "./" || startsWith href "../");
    cbn [orb]; [reflexivity |].
  destruct (resolve href url) as [linkUrl |]; reflexivity.
Qed.

Lemma filter_length_le {A : Type} (p : A -> bool) (l : list A) :
  (List.length (filter p l) <= List.length l)%nat.
Proof.
  induction l as [| x l IH]; cbn [filter List.length]; [lia |].
  destruct (p x); cbn [List.length]; lia.
Qed.

Lemma filter_nil_iff {A : Type} (p : A -> bool) (l : list A) :
  List.length (filter p l) = 0%nat <-> forall x, In x l -> p x = false.
Proof.
  induction l as [| a l IH]; cbn [filter List.length In].
  - split; [intros _ x [] | reflexivity].
  - destruct (p a) eqn:E; cbn [List.length].
    + split; [discriminate |]. intros H. rewrite (H a (or_introl eq_refl)) in E.
      discriminate.
    + rewrite IH. split.
      * intros H x [<- | Hx]; [exact E | exact (H x Hx)].
      * intros H x Hx. apply H. right. exact Hx.
Qed.

(** X3: the count of images without alt text is the number of img elements
    whose alt attribute is missing or blank; it never exceeds the count of
    images, and it is zero exactly when every img element has an alt
    attribute that is not blank. *)
Theorem imagesMissingAlt_counts
    (resolve : string -> string -> option URL)
    (doc : list Node) (url : string) (urlObj : URL) :
  imagesMissingAlt (extract resolve doc url urlObj) =
    List.length (filter lacks_alt (select_tag doc "img")) /\
  (imagesMissingAlt (extract resolve doc url urlObj) <=
   totalImages (extract resolve doc url urlObj))%nat /\
  (imagesMissingAlt (extract resolve doc url urlObj) = 0%nat <->
   forall img, In img (select_tag doc "img") ->
     exists alt, attribute "alt" img = Some alt /\ trim alt <> "").
Proof.
  assert (Hcount : imagesMissingAlt (extract resolve doc url urlObj) =
                   List.length (filter lacks_alt (select_tag doc "img"))).
  { unfold extract; cbn [imagesMissingAlt].
    rewrite (fold_left_count lacks_alt count_missing_alt count_missing_alt_test).
    reflexivity. }
  split; [exact Hcount | split].
  - rewrite Hcount. unfold extract; cbn [totalImages]. apply filter_length_le.
  - rewrite Hcount, filter_nil_iff. split; intros H img Hin.
    + specialize (H img Hin). unfold lacks_alt in H.
      destruct (attribute "alt" img) as [alt |]; [| discriminate].
      exists alt. split; [reflexivity |].
      intros Heq. rewrite Heq in H. discriminate.
    + destruct (H img Hin) as (alt & Halt & Hne). unfold lacks_alt. rewrite Halt.
      destruct (String.eqb_spec (trim alt) ""); [contradiction | reflexivity].
Qed.

(** X4: the count of internal links is the number of a elements with an
    href that is not empty and either starts with "/", "./" or "../" or
    resolves to the host of the page; a link whose target does not resolve
    is left out, and the count never exceeds the number of a elements with
    an href. *)
Theorem totalInternalLinks_counts
    (resolve : string -> string -> option URL)
    (doc : list Node) (url : string) (urlObj : URL) :
  totalInternalLinks (extract resolve doc url urlObj) =
    List.length (filter (is_internal resolve url (hostname urlObj))
                   (select_tag_has_attr doc "a" "href")) /\
  (totalInternalLinks (extract resolve doc url urlObj) <=
   List.length (select_tag_has_attr doc "a" "href"))%nat /\
  totalInternalLinks (extract (fun _ _ => None) page_three_links url urlObj) = 1%nat.
Proof.
  assert (Hcount : totalInternalLinks (extract resolve doc url urlObj) =
            List.length (filter (is_internal resolve url (hostname urlObj))
                           (select_tag_has_attr doc "a" "href"))).
  { unfold extract; cbn [totalInternalLinks].
    rewrite (fold_left_count (is_internal resolve url (hostname urlObj))
               (count_internal_link resolve url (hostname urlObj))
               (count_internal_link_test resolve url (hostname urlObj))).
    reflexivity. }
  split; [exact Hcount | split; [| reflexivity]].
  rewrite Hcount. apply filter_length_le.
Qed.

(** X5: the extractor never returns an empty title or an empty meta
    description: each is null or a non-empty string, the title being the
    trimmed text of the first title element; so the scorer's first two
    checks pass exactly when the field is not null. *)
Theorem extracted_strings_nonempty
    (resolve : string -> string -> option URL)
    (doc : list Node) (url : string) (urlObj : URL) :
  (forall t, title (extract resolve doc url urlObj) = Some t ->
     t <> "" /\ t = trim (first_text (select_tag doc "title"))) /\
  (forall c, metaDescription (extract resolve doc url urlObj) = Some c -> c <> "") /\
  present (title (extract resolve doc url urlObj)) =
    match title (extract resolve doc url urlObj) with
    | Some _ => true
    | None => false
    end /\
  present (metaDescription (extract resolve doc url urlObj)) =
    match metaDescription (extract resolve doc url urlObj) with
    | Some _ => true
    | None => false
    end.
Proof.
  assert (Hor : forall a b s, or_else a b = Some s ->
                  (forall s', b = Some s' -> nonempty s' = true) ->
                  nonempty s = true).
  { intros a b s. unfold or_else. destruct a as [x |].
    - destruct (nonempty x) eqn:E.
      + intros H _; inversion H; subst; exact E.
      + intros H Hb. exact (Hb s H).
    - intros H Hb. exact (Hb s H). }
  assert (Hne : forall s, nonempty s = true -> s <> "").
  { intros s H ->. discriminate H. }
  assert (Ht : forall t, title (extract resolve doc url urlObj) = Some t ->
                 nonempty t = true /\ t = trim (first_text (select_tag doc "title"))).
  { intros t. unfold extract; cbn [title]. unfold or_else.
    destruct (nonempty (trim (first_text (select_tag doc "title")))) eqn:E;
      [| discriminate].
    intros H; inversion H; subst. split; [exact E | reflexivity]. }
  assert (Hm : forall c, metaDescription (extract resolve doc url urlObj) = Some c ->
                 nonempty c = true).
  { intros c. unfold extract; cbn [metaDescription]. intros H.
    apply Hor in H; [exact H |].
    intros s' H'. apply Hor in H'; [exact H' | discriminate]. }
  split; [| split; [| split]].
  - intros t H. destruct (Ht t H) as [H1 H2]. split; [apply Hne, H1 | exact H2].
  - intros c H. apply Hne, Hm, H.
  - destruct (title (extract resolve doc url urlObj)) as [t |] eqn:E; [| reflexivity].
    exact (proj1 (Ht t eq_refl)).
  - destruct (metaDescription (extract resolve doc url urlObj)) as [c |] eqn:E;
      [| reflexivity].
    exact (Hm c eq_refl).
Qed.

End ExtractorCounts.

(* ================================================================== *)
(** ** Fetching, continued *)
(* ================================================================== *)

Module FetchCases.

Import SeoService ErrorHandler Analyze Samples Tables StringFacts.

Lemma trimEnd_blank s : trimEnd s = "" -> only_whitespace s = true.
Proof.
  induction s as [| c s IH]; cbn [trimEnd only_whitespace]; [reflexivity |].
  destruct (trimEnd s) eqn:E; [| discriminate].
  destruct (is_whitespace c); [| discriminate].
  intros _. exact (IH eq_refl).
Qed.

Lemma trimStart_blank s : only_whitespace (trimStart s) = true -> only_whitespace s = true.
Proof.
  induction s as [| c s IH]; cbn [trimStart only_whitespace]; [reflexivity |].
  destruct (is_whitespace c) eqn:E; [exact IH |].
  cbn [only_whitespace]. rewrite E. discriminate.
Qed.

(** A string trims to nothing exactly when it holds white space only. *)
Lemma trim_blank_iff s : trim s = "" <-> only_whitespace s = true.
Proof.
  split; [| apply trim_only_whitespace].
  intros H. apply trimStart_blank, trimEnd_blank, H.
Qed.

Lemma empty_test s :
  negb (truthy (VString s)) || (String.length (trim s) =? 0)%nat = only_whitespace s.
Proof.
  destruct (only_whitespace s) eqn:E.
  - rewrite (trim_only_whitespace s E). apply orb_true_r.
  - assert (Hs : s <> "") by (intros ->; discriminate E).
    assert (Ht : trim s <> "") by (intros Ht; apply trim_blank_iff in Ht; congruence).
    cbn [truthy]. destruct (String.eqb_spec s ""); [contradiction |].
    destruct (trim s); [contradiction | reflexivity].
Qed.

Lemma content_type_test r :
  negb (includes match or_else (resp_content_type r) (Some "") with
                 | Some c => c
                 | None => ""
                 end "text/html") &&
  negb (includes match or_else (resp_content_type r) (Some "") with
                 | Some c => c
                 | None => ""
                 end "text/plain") = negb (accepts_content_type r).
Proof.
  unfold accepts_content_type, or_else, nonempty.
  destruct (resp_content_type r) as [ct |]; [| reflexivity].
  destruct (String.eqb_spec ct "") as [-> | _]; [reflexivity |].
  cbn [negb]. symmetry. apply negb_orb.
Qed.

(** The [try] block on a reply axios accepted. *)
Lemma fetchHTML_try_accepted r :
  validateStatus (resp_status r) = true ->
  fetchHTML_try (Replied r) =
  if negb (accepts_content_type r)
  then Throw (new_Error "URL does not return HTML content")
  else match resp_data r with
       | VString s =>
           if only_whitespace s
           then Throw (new_Error "Empty HTML: Page returned no content")
           else if (MAX_SIZE <? N.of_nat (String.length s))%N
           then Throw (new_Error "Page too large: Content exceeds 10MB limit")
           else Normal s
       | _ => Throw (new_Error "Empty HTML: Page returned no content")
       end.
Proof.
  intros Hv. unfold fetchHTML_try, axios_get. rewrite Hv. cbn [bind].
  rewrite content_type_test.
  destruct (negb (accepts_content_type r)); [reflexivity |].
  destruct (resp_data r) as [| | b | n | s | items | fields]; try reflexivity.
  rewrite empty_test. reflexivity.
Qed.

(** The [catch] block on an error of the [try] block's own. *)
Lemma fetchHTML_catch_own msg :
  nonempty msg = true ->
  fetchHTML_catch (new_Error msg) = new_Error ("Failed to fetch URL: " ++ msg).
Proof.
  intros H. unfold fetchHTML_catch, code_is. cbn [new_Error err_code err_response err_message orb].
  rewrite H. reflexivity.
Qed.

(** X6: [fetchHTML] returns a page exactly when the target replied with a
    2xx status, a content type naming text/html or text/plain, and a body
    that is a string, not blank and no longer than the limit of 10MB; what
    it returns is that body, unchanged.  A body of exactly the limit is
    accepted. *)
Theorem fetchHTML_returns_page (t : Transfer) (html : string) :
  fetchHTML t = Normal html <->
  exists r,
    t = Replied r /\
    validateStatus (resp_status r) = true /\
    accepts_content_type r = true /\
    resp_data r = VString html /\
    only_whitespace html = false /\
    (N.of_nat (String.length html) <= MAX_SIZE)%N.
Proof.
  split.
  - destruct t as [r | e]; [| discriminate].
    destruct (validateStatus (resp_status r)) eqn:Hv.
    + unfold fetchHTML. rewrite (fetchHTML_try_accepted r Hv).
      destruct (accepts_content_type r) eqn:Ha; cbn [negb]; [| discriminate].
      destruct (resp_data r) as [| | b | n | s | items | fields] eqn:Hd;
        try discriminate.
      destruct (only_whitespace s) eqn:Hw; [discriminate |].
      destruct (MAX_SIZE <? N.of_nat (String.length s))%N eqn:Hl; [discriminate |].
      intros H; inversion H; subst.
      exists r. repeat split; try assumption.
      apply N.ltb_ge. exact Hl.
    + unfold fetchHTML, fetchHTML_try, axios_get. rewrite Hv. discriminate.
  - intros (r & -> & Hv & Ha & Hd & Hw & Hl).
    unfold fetchHTML. rewrite (fetchHTML_try_accepted r Hv), Ha, Hd, Hw.
    cbn [negb]. apply N.ltb_ge in Hl. rewrite Hl. reflexivity.
Qed.

(** X7: a 2xx reply whose content type is missing or names neither
    text/html nor text/plain is not classified: [fetchHTML] throws
    "Failed to fetch URL: URL does not return HTML content", in which
    [handleError] finds none of its phrases, so that it reads the undeclared
    [err] and the handler writes no response. *)
Theorem unsupported_content_type_escapes
    (parse : string -> option URL) (resolve : string -> string -> option URL)
    (load : string -> list Node) (transfer : string -> Transfer)
    (url : string) (r : Response) :
  transfer url = Replied r ->
  validateStatus (resp_status r) = true ->
  accepts_content_type r = false ->
  fetchHTML (transfer url) =
    Throw (new_Error "Failed to fetch URL: URL does not return HTML content") /\
  analysis parse resolve load transfer url = Escaped (ReferenceError "err").
Proof.
  intros Ht Hv Ha.
  assert (Hf : fetchHTML (transfer url) =
               Throw (new_Error "Failed to fetch URL: URL does not return HTML content")).
  { rewrite Ht. unfold fetchHTML. rewrite (fetchHTML_try_accepted r Hv), Ha.
    reflexivity. }
  split; [exact Hf |].
  unfold analysis. rewrite Hf. reflexivity.
Qed.

(** A JSON reply to the fetch. *)
Lemma unsupported_content_type_escapes_json :
  analysis Samples.parse Samples.resolve Samples.load
    (replies (mkResponse 200 (Some "application/json") (VString "{}")))
    "https://example.com" = Escaped (ReferenceError "err").
Proof.
  exact (proj2
    (unsupported_content_type_escapes Samples.parse Samples.resolve Samples.load
       (replies (mkResponse 200 (Some "application/json") (VString "{}")))
       "https://example.com"
       (mkResponse 200 (Some "application/json") (VString "{}"))
       eq_refl eq_refl eq_refl)).
Defined.

(** X8: a 2xx reply of an accepted content type whose body is not a string
    (a number, an object, null) is treated as an empty page: the pipeline
    answers 422 "Unprocessable Content". *)
Theorem non_string_body_unprocessable
    (parse : string -> option URL) (resolve : string -> string -> option URL)
    (load : string -> list Node) (transfer : string -> Transfer)
    (url : string) (r : Response) :
  transfer url = Replied r ->
  validateStatus (resp_status r) = true ->
  accepts_content_type r = true ->
  is_string (resp_data r) = false ->
  fetchHTML (transfer url) =
    Throw (new_Error "Failed to fetch URL: Empty HTML: Page returned no content") /\
  analysis parse resolve load transfer url =
    Responded 422 (ErrorBody "Unprocessable Content"
                     "The page returned empty or no HTML content").
Proof.
  intros Ht Hv Ha Hs.
  assert (Hf : fetchHTML (transfer url) =
            Throw (new_Error "Failed to fetch URL: Empty HTML: Page returned no content")).
  { rewrite Ht. unfold fetchHTML. rewrite (fetchHTML_try_accepted r Hv), Ha.
    cbn [negb]. destruct (resp_data r); try reflexivity. discriminate Hs. }
  split; [exact Hf |].
  unfold analysis. rewrite Hf. reflexivity.
Qed.

(** A body that the client parsed into a number. *)
Lemma non_string_body_unprocessable_number :
  analysis Samples.parse Samples.resolve Samples.load
    (replies (mkResponse 200 (Some "text/plain") (VNumber (Finite false 123 0))))
    "https://example.com" =
  Responded 422 (ErrorBody "Unprocessable Content"
                   "The page returned empty or no HTML content").
Proof.
  exact (proj2
    (non_string_body_unprocessable Samples.parse Samples.resolve Samples.load
       (replies (mkResponse 200 (Some "text/plain") (VNumber (Finite false 123 0))))
       "https://example.com"
       (mkResponse 200 (Some "text/plain") (VNumber (Finite false 123 0)))
       eq_refl eq_refl eq_refl eq_refl)).
Defined.

(** X9: a 2xx reply of an accepted content type whose body is not blank
    and longer than the limit of 10MB is answered 413 "Payload Too Large". *)
Theorem oversized_page_too_large
    (parse : string -> option URL) (resolve : string -> string -> option URL)
    (load : string -> list Node) (transfer : string -> Transfer)
    (url : string) (r : Response) (body : string) :
  transfer url = Replied r ->
  validateStatus (resp_status r) = true ->
  accepts_content_type r = true ->
  resp_data r = VString body ->
  only_whitespace body = false ->
  (MAX_SIZE < N.of_nat (String.length body))%N ->
  fetchHTML (transfer url) =
    Throw (new_Error "Failed to fetch URL: Page too large: Content exceeds 10MB limit") /\
  analysis parse resolve load transfer url =
    Responded 413 (ErrorBody "Payload Too Large"
                     "The page content exceeds the maximum allowed size").
Proof.
  intros Ht Hv Ha Hd Hw Hl.
  assert (Hf : fetchHTML (transfer url) =
    Throw (new_Error "Failed to fetch URL: Page too large: Content exceeds 10MB limit")).
  { rewrite Ht. unfold fetchHTML. rewrite (fetchHTML_try_accepted r Hv), Ha, Hd, Hw.
    cbn [negb]. apply N.ltb_lt in Hl. rewrite Hl. reflexivity. }
  split; [exact Hf |].
  unfold analysis. rewrite Hf. reflexivity.
Qed.

Lemma letters_length n : String.length (letters n) = n.
Proof.
  induction n as [| n IH]; cbn [letters String.length]; [reflexivity |].
  rewrite IH. reflexivity.
Qed.

Lemma one_more_letter_length k :
  (k < N.of_nat (String.length (String "a" (letters (N.to_nat k)))))%N.
Proof.
  cbn [String.length].
  rewrite letters_length, Nat2N.inj_succ, N2Nat.id.
  apply N.lt_succ_diag_r.
Qed.

Lemma oversized_page_length :
  (MAX_SIZE < N.of_nat (String.length oversized_page))%N.
Proof. exact (one_more_letter_length MAX_SIZE). Qed.

Lemma letter_first_not_blank s : only_whitespace (String "a" s) = false.
Proof. reflexivity. Qed.

Lemma oversized_page_not_blank : only_whitespace oversized_page = false.
Proof. exact (letter_first_not_blank (letters (N.to_nat MAX_SIZE))). Qed.

(** A page one character over the limit. *)
Lemma oversized_page_too_large_by_one :
  analysis Samples.parse Samples.resolve Samples.load
    (replies (mkResponse 200 (Some "text/html") (VString oversized_page)))
    "https://example.com" =
  Responded 413 (ErrorBody "Payload Too Large"
                   "The page content exceeds the maximum allowed size").
Proof.
  exact (proj2
    (oversized_page_too_large Samples.parse Samples.resolve Samples.load
       (replies (mkResponse 200 (Some "text/html") (VString oversized_page)))
       "https://example.com"
       (mkResponse 200 (Some "text/html") (VString oversized_page))
       oversized_page eq_refl eq_refl eq_refl eq_refl
       oversized_page_not_blank oversized_page_length)).
Defined.

(** X10: a transfer that fails with the code ECONNABORTED or ETIMEDOUT is
    answered 408 "Request Timeout", whatever message the failure carries. *)
Theorem timed_out_transfer_request_timeout
    (parse : string -> option URL) (resolve : string -> string -> option URL)
    (load : string -> list Node) (transfer : string -> Transfer)
    (url : string) (e : Error) :
  transfer url = Failed e ->
  err_code e = Some "ECONNABORTED" \/ err_code e = Some "ETIMEDOUT" ->
  analysis parse resolve load transfer url =
    Responded 408 (ErrorBody "Request Timeout"
                     "The request timed out while fetching the URL").
Proof.
  intros Ht Hc. unfold analysis, fetchHTML. rewrite Ht.
  cbn [fetchHTML_try axios_get bind]. unfold fetchHTML_catch, code_is.
  destruct Hc as [-> | ->]; reflexivity.
Qed.

Lemma timed_out_transfer_request_timeout_aborted :
  analysis Samples.parse Samples.resolve Samples.load
    (fails_with (transport_failure "ECONNABORTED" "timeout of 10000ms exceeded"))
    "https://example.com" =
  Responded 408 (ErrorBody "Request Timeout"
                   "The request timed out while fetching the URL").
Proof.
  exact (timed_out_transfer_request_timeout Samples.parse Samples.resolve Samples.load
           (fails_with (transport_failure "ECONNABORTED" "timeout of 10000ms exceeded"))
           "https://example.com"
           (transport_failure "ECONNABORTED" "timeout of 10000ms exceeded")
           eq_refl (or_introl eq_refl)).
Defined.

(** X11: a transfer that fails with the code ENOTFOUND or EAI_AGAIN is
    answered 502 "Bad Gateway" with the message
    "Unable to resolve the domain name". *)
Theorem unresolved_host_bad_gateway
    (parse : string -> option URL) (resolve : string -> string -> option URL)
    (load : string -> list Node) (transfer : string -> Transfer)
    (url : string) (e : Error) :
  transfer url = Failed e ->
  err_code e = Some "ENOTFOUND" \/ err_code e = Some "EAI_AGAIN" ->
  analysis parse resolve load transfer url =
    Responded 502 (ErrorBody "Bad Gateway" "Unable to resolve the domain name").
Proof.
  intros Ht Hc. unfold analysis, fetchHTML. rewrite Ht.
  cbn [fetchHTML_try axios_get bind]. unfold fetchHTML_catch, code_is.
  destruct Hc as [-> | ->]; reflexivity.
Qed.

Lemma unresolved_host_bad_gateway_enotfound :
  analysis Samples.parse Samples.resolve Samples.load
    (fails_with (transport_failure "ENOTFOUND" "getaddrinfo ENOTFOUND example.com"))
    "https://example.com" =
  Responded 502 (ErrorBody "Bad Gateway" "Unable to resolve the domain name").
Proof.
  exact (unresolved_host_bad_gateway Samples.parse Samples.resolve Samples.load
           (fails_with (transport_failure "ENOTFOUND" "getaddrinfo ENOTFOUND example.com"))
           "https://example.com"
           (transport_failure "ENOTFOUND" "getaddrinfo ENOTFOUND example.com")
           eq_refl (or_introl eq_refl)).
Defined.

(** X12: a transfer that fails with the code ECONNREFUSED is answered 403
    "Access Forbidden". *)
Theorem refused_connection_forbidden
    (parse : string -> option URL) (resolve : string -> string -> option URL)
    (load : string -> list Node) (transfer : string -> Transfer)
    (url : string) (e : Error) :
  transfer url = Failed e ->
  err_code e = Some "ECONNREFUSED" ->
  analysis parse resolve load transfer url =
    Responded 403 (ErrorBody "Access Forbidden"
                     "The website is blocking access or refusing connections").
Proof.
  intros Ht Hc. unfold analysis, fetchHTML. rewrite Ht.
  cbn [fetchHTML_try axios_get bind]. unfold fetchHTML_catch, code_is.
  rewrite Hc. reflexivity.
Qed.

Lemma refused_connection_forbidden_local :
  analysis Samples.parse Samples.resolve Samples.load
    (fails_with (transport_failure "ECONNREFUSED" "connect ECONNREFUSED 127.0.0.1:80"))
    "https://example.com" =
  Responded 403 (ErrorBody "Access Forbidden"
                   "The website is blocking access or refusing connections").
Proof.
  exact (refused_connection_forbidden Samples.parse Samples.resolve Samples.load
           (fails_with (transport_failure "ECONNREFUSED" "connect ECONNREFUSED 127.0.0.1:80"))
           "https://example.com"
           (transport_failure "ECONNREFUSED" "connect ECONNREFUSED 127.0.0.1:80")
           eq_refl eq_refl).
Defined.

(** X13: a transfer that fails with one of the three certificate codes is
    not classified: the error [fetchHTML] throws for it has none of the
    phrases of [handleError], which reads the undeclared [err]; the handler
    writes no response. *)
Theorem certificate_failure_escapes
    (parse : string -> option URL) (resolve : string -> string -> option URL)
    (load : string -> list Node) (transfer : string -> Transfer)
    (url : string) (e : Error) (code : string) :
  transfer url = Failed e ->
  err_code e = Some code ->
  In code certificate_codes ->
  analysis parse resolve load transfer url = Escaped (ReferenceError "err").
Proof.
  intros Ht Hc Hin. unfold analysis, fetchHTML. rewrite Ht.
  cbn [fetchHTML_try axios_get bind].
  assert (Hcatch : fetchHTML_catch e =
            match err_response e with
            | Some status => new_Error (status_error_message status)
            | None => new_Error "SSL certificate error: Invalid or expired certificate"
            end).
  { unfold fetchHTML_catch, code_is, status_error_message. rewrite Hc.
    cbn [certificate_codes In] in Hin.
    destruct Hin as [<- | [<- | [<- | []]]]; cbn;
      (destruct (err_response e) as [status |]; [| reflexivity]);
      (destruct ((400 <=? status) && (status <? 500))%N;
        [| destruct (500 <=? status)%N]); reflexivity. }
  rewrite Hcatch. unfold respond_error.
  destruct (err_response e) as [status |].
  - rewrite FetchFacts.handleError_reads_err; [reflexivity | |].
    + apply FetchFacts.status_error_message_nonempty.
    + intros c. apply FetchFacts.status_error_message_lacks.
  - reflexivity.
Qed.

Lemma certificate_failure_escapes_expired :
  analysis Samples.parse Samples.resolve Samples.load
    (fails_with (transport_failure "CERT_HAS_EXPIRED" "certificate has expired"))
    "https://example.com" = Escaped (ReferenceError "err").
Proof.
  exact (certificate_failure_escapes Samples.parse Samples.resolve Samples.load
           (fails_with (transport_failure "CERT_HAS_EXPIRED" "certificate has expired"))
           "https://example.com"
           (transport_failure "CERT_HAS_EXPIRED" "certificate has expired")
           "CERT_HAS_EXPIRED" eq_refl eq_refl (or_intror (or_introl eq_refl))).
Defined.

(** X14: every error [fetchHTML] throws is a plain [Error] made in its
    [catch] block: it has a message that is not empty, and neither the [code]
    nor the [response] of the error that was caught. *)
Theorem fetchHTML_throws_plain_errors (t : Transfer) (e : Error) :
  fetchHTML t = Throw e ->
  err_name e = "Error" /\ err_code e = None /\ err_response e = None /\
  err_message e <> "".
Proof.
  unfold fetchHTML. destruct (fetchHTML_try t) as [html | e0]; [discriminate |].
  intros H; inversion H; subst e; clear H.
  unfold fetchHTML_catch.
  repeat match goal with
         | |- context [if ?c then _ else _] => destruct c
         | |- context [match err_response ?x with _ => _ end] =>
             destruct (err_response x)
         end;
    repeat split; cbn [new_Error err_message append]; discriminate.
Qed.

Lemma fetchHTML_throws_plain_errors_refused :
  err_name (new_Error "Connection refused: Server is not accepting connections") = "Error" /\
  err_code (new_Error "Connection refused: Server is not accepting connections") = None /\
  err_response (new_Error "Connection refused: Server is not accepting connections") = None /\
  err_message (new_Error "Connection refused: Server is not accepting connections") <> "".
Proof.
  exact (fetchHTML_throws_plain_errors
           (Failed (transport_failure "ECONNREFUSED" "connect ECONNREFUSED 127.0.0.1:80"))
           (new_Error "Connection refused: Server is not accepting connections")
           eq_refl).
Defined.

End FetchCases.

(* ================================================================== *)
(** ** Classifying and answering, continued *)
(* ================================================================== *)

Module HandlerCases.

Import SeoService ErrorHandler Analyze Samples Tables.

(** X15: whatever error it is given, [handleError] returns one of seven
    status and label pairs, none of them 500 "Internal Server Error", or
    throws the ReferenceError for the undeclared [err]: the default class
    after line 95 is never reached. *)
Theorem handleError_outcomes (e : Error) :
  (forall resp, handleError e = Normal resp ->
     In (status resp, error resp) classes /\ status resp <> 500%N) /\
  (forall x, handleError e = Throw x -> x = ReferenceError "err").
Proof.
  unfold handleError, blocked_site_check, binding_of_err.
  repeat match goal with
         | |- context [if ?c then _ else _] => destruct c
         end;
    (split; [intros resp H | intros x H]); inversion H; subst;
    first [reflexivity | cbn; split; [tauto | discriminate]].
Qed.

(** X16: given the error axios raised for a rejected status, which still
    carries the response, [handleError] classifies by the status alone: 403
    is "Access Forbidden", a status of 500 or more is 502 "Bad Gateway", any
    other 4xx status is 400 "Bad Request", both with the message
    "Target server returned error: " followed by the status; a status below
    400 is not classified. *)
Theorem handleError_given_response (r : Response) :
  validateStatus (resp_status r) = false ->
  handleError (axios_status_error r) =
  if (resp_status r =? 403)%N
  then Normal (mkErrorResponse 403 "Access Forbidden"
                 "The website is blocking access or refusing connections")
  else if (500 <=? resp_status r)%N
  then Normal (mkErrorResponse 502 "Bad Gateway"
                 ("Target server returned error: " ++ N_to_string (resp_status r)))
  else if (400 <=? resp_status r)%N
  then Normal (mkErrorResponse 400 "Bad Request"
                 ("Target server returned error: " ++ N_to_string (resp_status r)))
  else Throw (ReferenceError "err").
Proof.
  intros Hv. rewrite (FetchFacts.handleError_axios_status_error r Hv).
  destruct (FetchFacts.axios_status_error_shape r Hv) as (_ & Hresp & _).
  unfold by_status_only, response_status_is, response_status_ge, response_status_lt.
  rewrite Hresp.
  destruct (resp_status r =? 403)%N; [reflexivity |].
  destruct (500 <=? resp_status r)%N eqn:H5; [reflexivity |].
  apply N.leb_gt in H5. apply N.ltb_lt in H5. rewrite H5, andb_true_r.
  destruct (400 <=? resp_status r)%N; reflexivity.
Qed.

(** A target that answers 403. *)
Lemma handleError_given_response_403 :
  handleError (axios_status_error (mkResponse 403 (Some "text/html") (VString "")))
  = Normal (mkErrorResponse 403 "Access Forbidden"
              "The website is blocking access or refusing connections").
Proof.
  exact (handleError_given_response
           (mkResponse 403 (Some "text/html") (VString "")) eq_refl).
Defined.

Section Handler.

Variable parse : string -> option URL.
Variable resolve : string -> string -> option URL.
Variable load : string -> list Node.
Variable transfer : string -> Transfer.

(** What an analysis comes to, by the outcome of the fetch. *)
Lemma analysis_by_fetch url :
  analysis parse resolve load transfer url =
  match fetchHTML (transfer url) with
  | Normal html =>
      match parse url with
      | Some urlObj =>
          let r := calculateScore (extract resolve (load html) url urlObj) in
          Responded 200
            (AnalysisBody url (res_score r) (res_passedChecks r ++ res_issues r)
               (res_issues r) (res_passedChecks r))
      | None => respond_error TypeError_invalid_url
      end
  | Throw e => respond_error e
  end.
Proof.
  unfold analysis, parseSEOData.
  destruct (fetchHTML (transfer url)) as [html | e]; cbn [bind]; [| reflexivity].
  destruct (parse url); reflexivity.
Qed.

Lemma respond_error_outcomes e :
  (forall st b, respond_error e = Responded st b ->
     In st answered_statuses /\ st <> 200%N /\ st <> 500%N /\
     exists label msg, b = ErrorBody label msg) /\
  (forall x, respond_error e = Escaped x -> x = ReferenceError "err").
Proof.
  unfold respond_error, handleError, blocked_site_check, binding_of_err.
  repeat match goal with
         | |- context [if ?c then _ else _] => destruct c
         end;
    (split; [intros st b H | intros x H]); inversion H; subst;
    first [reflexivity
          | cbn; repeat split; solve [tauto | discriminate | eauto]].
Qed.

(** The handler answers with an analysis only out of the analysis of a url
    that passed its checks. *)
Lemma post_analysis_inv body st url seoScore checks issues passedChecks :
  post parse resolve load transfer body =
    Responded st (AnalysisBody url seoScore checks issues passedChecks) ->
  get body "url" = VString url /\ url <> "" /\
  (exists urlObj, parse url = Some urlObj /\
     (protocol urlObj = "http:" \/ protocol urlObj = "https:")) /\
  analysis parse resolve load transfer url =
    Responded st (AnalysisBody url seoScore checks issues passedChecks).
Proof.
  unfold post.
  destruct (truthy (get body "url")) eqn:Ht; cbn [negb]; [| discriminate].
  destruct (get body "url") as [| | b0 | n | u | items | fields]; try discriminate.
  destruct (parse u) as [urlObj |] eqn:Hp; [| discriminate].
  destruct (negb (protocol urlObj =? "http:") && negb (protocol urlObj =? "https:"))
    eqn:Hproto; [discriminate |].
  intros H.
  assert (Hu : u = url).
  { rewrite analysis_by_fetch, Hp in H.
    destruct (fetchHTML (transfer u)) as [html | e].
    - inversion H; reflexivity.
    - destruct (respond_error_outcomes e) as [Hr _].
      destruct (Hr _ _ H) as (_ & _ & _ & label & msg & Hb). discriminate Hb. }
  subst u. split; [reflexivity | split; [| split; [| exact H]]].
  - intros ->. discriminate Ht.
  - exists urlObj. split; [exact Hp |].
    apply andb_false_iff in Hproto.
    destruct Hproto as [H1 | H1]; apply negb_false_iff, String.eqb_eq in H1; tauto.
Qed.

(** What the handler comes to once [url] is read from the body. *)
Lemma post_outcomes_parsed (body : list (string * Value)) :
  (forall st b, post parse resolve load transfer body = Responded st b ->
     In st answered_statuses /\ st <> 500%N /\
     (st = 200%N <-> exists url seoScore checks issues passedChecks,
                       b = AnalysisBody url seoScore checks issues passedChecks)) /\
  (forall x, post parse resolve load transfer body = Escaped x ->
     x = ReferenceError "err").
Proof.
  assert (Hval : forall st b label msg,
            Responded 400 (ErrorBody label msg) = Responded st b ->
            In st answered_statuses /\ st <> 500%N /\
            (st = 200%N <-> exists url seoScore checks issues passedChecks,
                              b = AnalysisBody url seoScore checks issues passedChecks)).
  { intros st b label msg H; inversion H; subst.
    split; [cbn; tauto | split; [discriminate |]].
    split; [discriminate | intros (? & ? & ? & ? & ? & Hb); discriminate Hb]. }
  assert (Hana : forall url,
            (forall st b, analysis parse resolve load transfer url = Responded st b ->
               In st answered_statuses /\ st <> 500%N /\
               (st = 200%N <-> exists u seoScore checks issues passedChecks,
                                 b = AnalysisBody u seoScore checks issues passedChecks)) /\
            (forall x, analysis parse resolve load transfer url = Escaped x ->
               x = ReferenceError "err")).
  { intros url. rewrite analysis_by_fetch.
    assert (Herr : forall e,
              (forall st b, respond_error e = Responded st b ->
                 In st answered_statuses /\ st <> 500%N /\
                 (st = 200%N <-> exists u seoScore checks issues passedChecks,
                                   b = AnalysisBody u seoScore checks issues passedChecks)) /\
              (forall x, respond_error e = Escaped x -> x = ReferenceError "err")).
    { intros e. destruct (respond_error_outcomes e) as [Hr He]. split; [| exact He].
      intros st b H. destruct (Hr st b H) as (Hin & H200 & H500 & label & msg & ->).
      split; [exact Hin | split; [exact H500 |]].
      split; [contradiction | intros (? & ? & ? & ? & ? & Hb); discriminate Hb]. }
    destruct (fetchHTML (transfer url)) as [html | e]; [| apply Herr].
    destruct (parse url) as [urlObj |]; [| apply Herr].
    split; [| discriminate].
    intros st b H; inversion H; subst.
    split; [cbn; tauto | split; [discriminate |]].
    split; [intros _; do 5 eexists; reflexivity | reflexivity]. }
  unfold post.
  destruct (negb (truthy (get body "url"))); [split; [intros st b; apply Hval | discriminate] |].
  destruct (get body "url") as [| | b0 | n | url | items | fields];
    try (split; [intros st b; apply Hval | discriminate]).
  destruct (parse url) as [urlObj |];
    [| split; [intros st b; apply Hval | discriminate]].
  destruct (negb (protocol urlObj =? "http:") && negb (protocol urlObj =? "https:"));
    [split; [intros st b; apply Hval | discriminate] |].
  apply Hana.
Qed.

(** X17: the handler answers with one of the statuses 200, 400, 403, 408,
    413, 422 and 502, and never with 500; the status is 200 exactly when the
    body is an analysis; an error leaves the handler without a response in
    two ways only: the TypeError of destructuring a request body that is
    undefined or null, which it throws for every such body, and the
    ReferenceError for the undeclared [err]. *)
Theorem post_outcomes (req_body : Value) :
  (forall st b, router_post parse resolve load transfer req_body = Responded st b ->
     In st answered_statuses /\ st <> 500%N /\
     (st = 200%N <-> exists url seoScore checks issues passedChecks,
                       b = AnalysisBody url seoScore checks issues passedChecks)) /\
  (forall x, router_post parse resolve load transfer req_body = Escaped x ->
     x = ReferenceError "err" \/
     (req_body = VUndefined /\ x = TypeError_destructure "undefined") \/
     (req_body = VNull /\ x = TypeError_destructure "null")) /\
  (req_body = VUndefined \/ req_body = VNull ->
   exists x, router_post parse resolve load transfer req_body = Escaped x /\
             err_name x = "TypeError").
Proof.
  split; [| split].
  - intros st b. unfold router_post.
    destruct req_body as [| | b0 | n | s0 | items | fields]; try discriminate;
      apply (proj1 (post_outcomes_parsed _)).
  - intros x. unfold router_post.
    destruct req_body as [| | b0 | n | s0 | items | fields];
      try (intros H; left; exact (proj2 (post_outcomes_parsed _) x H));
      intros H; inversion H; subst; right; [left | right]; split; reflexivity.
  - intros [-> | ->]; eexists; (split; [reflexivity | reflexivity]).
Qed.

(** X18: the handler answers with an analysis exactly when the url of the
    body is a non-empty string that parses to an http or https URL and the
    fetch of it returns a page; the analysis then holds that url and the
    score, issues and passed checks of the signals extracted from that
    page. *)
Theorem post_success_iff
    (body : list (string * Value)) (url : string) (seoScore : Z)
    (checks issues passedChecks : list string) :
  post parse resolve load transfer body =
    Responded 200 (AnalysisBody url seoScore checks issues passedChecks) <->
  exists urlObj html,
    get body "url" = VString url /\ url <> "" /\
    parse url = Some urlObj /\
    (protocol urlObj = "http:" \/ protocol urlObj = "https:") /\
    fetchHTML (transfer url) = Normal html /\
    seoScore = res_score (calculateScore (extract resolve (load html) url urlObj)) /\
    issues = res_issues (calculateScore (extract resolve (load html) url urlObj)) /\
    passedChecks =
      res_passedChecks (calculateScore (extract resolve (load html) url urlObj)) /\
    checks = passedChecks ++ issues.
Proof.
  split.
  - intros H. apply post_analysis_inv in H.
    destruct H as (Hu & Hne & (urlObj & Hp & Hproto) & H).
    rewrite analysis_by_fetch, Hp in H.
    destruct (fetchHTML (transfer url)) as [html | e] eqn:Hf.
    + inversion H; subst. exists urlObj, html. repeat split; assumption.
    + destruct (respond_error_outcomes e) as [Hr _].
      destruct (Hr _ _ H) as (_ & H200 & _). contradiction.
  - intros (urlObj & html & Hu & Hne & Hp & Hproto & Hf & -> & -> & -> & ->).
    unfold post. rewrite Hu. cbn [truthy].
    destruct (String.eqb_spec url ""); [contradiction |].
    cbn [negb]. rewrite Hp.
    replace (negb (protocol urlObj =? "http:") && negb (protocol urlObj =? "https:"))
      with false
      by (destruct Hproto as [-> | ->]; reflexivity).
    rewrite analysis_by_fetch, Hf, Hp. reflexivity.
Qed.

(** X19: an analysis of a page addressed over http never scores more than
    80, and "Page does not use HTTPS" is among its issues and its checks. *)
Theorem http_page_never_perfect
    (body : list (string * Value)) (st : N) (url : string) (seoScore : Z)
    (checks issues passedChecks : list string) (urlObj : URL) :
  post parse resolve load transfer body =
    Responded st (AnalysisBody url seoScore checks issues passedChecks) ->
  parse url = Some urlObj ->
  protocol urlObj = "http:" ->
  (seoScore <= 80)%Z /\
  In "Page does not use HTTPS" issues /\
  In "Page does not use HTTPS" checks.
Proof.
  intros H Hp Hproto. apply post_analysis_inv in H.
  destruct H as (_ & _ & _ & H).
  rewrite analysis_by_fetch, Hp in H.
  destruct (fetchHTML (transfer url)) as [html | e].
  - inversion H; subst.
    assert (Hhttps : usesHTTPS (extract resolve (load html) url urlObj) = false).
    { unfold extract; cbn [usesHTTPS]. rewrite Hproto. reflexivity. }
    destruct (ScorerTable.score_without_https _ Hhttps) as [Hs Hi].
    split; [exact Hs | split; [exact Hi |]].
    apply in_or_app. right. exact Hi.
  - destruct (respond_error_outcomes e) as [Hr _].
    destruct (Hr _ _ H) as (_ & _ & _ & label & msg & Hb). discriminate Hb.
Qed.

(** X20: a url that is a non-empty string but does not parse is answered
    400 "Invalid URL format", and one that parses to a scheme other than
    http and https is answered 400 "Invalid URL protocol"; in both cases
    nothing is fetched: the answer is the same on every network. *)
Theorem invalid_url_rejected_before_fetch
    (body : list (string * Value)) (url : string) :
  get body "url" = VString url ->
  url <> "" ->
  (parse url = None ->
   forall network,
     post parse resolve load network body =
     Responded 400 (ErrorBody "Invalid URL format" "URL must be a valid URL")) /\
  (forall urlObj,
     parse url = Some urlObj ->
     protocol urlObj <> "http:" -> protocol urlObj <> "https:" ->
     forall network,
       post parse resolve load network body =
       Responded 400
         (ErrorBody "Invalid URL protocol" "URL must use http or https protocol")).
Proof.
  intros Hu Hne.
  assert (Ht : negb (truthy (VString url)) = false).
  { cbn [truthy]. destruct (String.eqb_spec url ""); [contradiction | reflexivity]. }
  split.
  - intros Hp network. unfold post. rewrite Hu, Ht, Hp. reflexivity.
  - intros urlObj Hp H1 H2 network. unfold post. rewrite Hu, Ht, Hp.
    apply String.eqb_neq in H1, H2. rewrite H1, H2. reflexivity.
Qed.

End Handler.

(** The complete page, addressed over http. *)
Lemma http_page_never_perfect_complete_page :
  (80 <= 80)%Z /\
  In "Page does not use HTTPS" ["Page does not use HTTPS"] /\
  In "Page does not use HTTPS"
     (["Page has a title tag"; "Page has a meta description";
       "Page has at least one H1 tag"; "All images have alt text"] ++
      ["Page does not use HTTPS"]).
Proof.
  exact (http_page_never_perfect Samples.parse Samples.resolve Samples.load serves_page
           (body_with_url (VString "http://example.com")) 200 "http://example.com" 80
           (["Page has a title tag"; "Page has a meta description";
             "Page has at least one H1 tag"; "All images have alt text"] ++
            ["Page does not use HTTPS"])
           ["Page does not use HTTPS"]
           ["Page has a title tag"; "Page has a meta description";
            "Page has at least one H1 tag"; "All images have alt text"]
           (mkURL "http:" "example.com") eq_refl eq_refl eq_refl).
Defined.

(** A string that is no URL, and an ftp URL. *)
Lemma invalid_url_rejected_before_fetch_samples :
  (forall network,
     post Samples.parse Samples.resolve Samples.load network
       (body_with_url (VString "not a url")) =
     Responded 400 (ErrorBody "Invalid URL format" "URL must be a valid URL")) /\
  (forall network,
     post Samples.parse Samples.resolve Samples.load network
       (body_with_url (VString "ftp://example.com")) =
     Responded 400
       (ErrorBody "Invalid URL protocol" "URL must use http or https protocol")).
Proof.
  split.
  - exact (proj1
      (invalid_url_rejected_before_fetch Samples.parse Samples.resolve Samples.load
         (body_with_url (VString "not a url")) "not a url"
         eq_refl ltac:(discriminate)) eq_refl).
  - exact (proj2
      (invalid_url_rejected_before_fetch Samples.parse Samples.resolve Samples.load
         (body_with_url (VString "ftp://example.com")) "ftp://example.com"
         eq_refl ltac:(discriminate))
      (mkURL "ftp:" "example.com") eq_refl ltac:(discriminate) ltac:(discriminate)).
Defined.

End HandlerCases.

(* ================================================================== *)
(** ** Two runs of the extractor and the scorer *)
(* ================================================================== *)

Module RunFacts.

Import SeoService Samples Run.

Ltac decide_refs :=
  repeat match goal with
         | |- context [(?a =? ?b)%nat] => destruct (Nat.eqb_spec a b); try lia
         end.

Lemma each_counter {A : Type} (c : nat) (step : nat -> A -> nat)
    (callback : A -> M unit) :
  steps_counter c step callback ->
  forall l w,
    next (snd (each l callback w)) = next w /\
    number (snd (each l callback w)) c = fold_left step l (number w c) /\
    forall r, r <> c -> cells (snd (each l callback w)) r = cells w r.
Proof.
  intros Hstep. induction l as [| x l IH]; intros w; cbn [each fold_left].
  - repeat split.
  - unfold seq. destruct (Hstep x w) as (Hn & Hc & Hf).
    destruct (IH (snd (callback x w))) as (Hn' & Hc' & Hf').
    rewrite Hn', Hc', Hn, Hc. repeat split.
    intros r Hr. rewrite (Hf' r Hr). exact (Hf r Hr).
Qed.

Lemma increment_steps c w :
  next (snd (increment c w)) = next w /\
  number (snd (increment c w)) c = S (number w c) /\
  forall r, r <> c -> cells (snd (increment c w)) r = cells w r.
Proof.
  unfold increment, store, number; cbn. rewrite Nat.eqb_refl. repeat split.
  intros r Hr. destruct (Nat.eqb_spec r c); [contradiction | reflexivity].
Qed.

Lemma ret_steps c w :
  next (snd (ret tt w)) = next w /\
  number (snd (ret tt w)) c = number w c /\
  forall r, r <> c -> cells (snd (ret tt w)) r = cells w r.
Proof. repeat split. Qed.

Section Functions.

Variable resolve : string -> string -> option URL.
Variable load : string -> list Node.
Variable parse : string -> option URL.

(** On every world [parseSEOData] returns the signals of the functional
    reading; it takes fresh references and leaves the cells of earlier calls
    as they were. *)
Lemma missing_alt_callback_steps c :
  steps_counter c count_missing_alt (missing_alt_callback c).
Proof.
  intros element w. unfold missing_alt_callback, count_missing_alt.
  destruct (attribute "alt" element) as [alt |];
    [destruct (trim alt =? "") |];
    first [apply increment_steps | apply ret_steps].
Qed.

Lemma internal_link_callback_steps url baseDomain c :
  steps_counter c (count_internal_link resolve url baseDomain)
    (internal_link_callback resolve url baseDomain c).
Proof.
  intros element w. unfold internal_link_callback, count_internal_link.
  destruct (attribute "href" element) as [href |]; [| apply ret_steps].
  destruct (negb (nonempty href)); [apply ret_steps |].
  destruct (startsWith href "/" || startsWith href "./" || startsWith href "../");
    [apply increment_steps |].
  destruct (resolve href url) as [linkUrl |]; [| apply ret_steps].
  destruct (hostname linkUrl =? baseDomain);
    first [apply increment_steps | apply ret_steps].
Qed.

(** A loop over a counter that was just made: the counter ends at the count,
    one reference is taken, and the cells of before are as they were. *)
Lemma counted_loop {A : Type} (step : nat -> A -> nat) (callback : nat -> A -> M unit)
    (l : list A) (w : World) :
  (forall c, steps_counter c step (callback c)) ->
  let w' := snd (each l (callback (fst (alloc (Num 0) w))) (snd (alloc (Num 0) w))) in
  fst (alloc (Num 0) w) = next w /\
  next w' = S (next w) /\
  number w' (next w) = fold_left step l 0%nat /\
  kept_below (next w) w w'.
Proof.
  intros Hstep w'. subst w'. cbn [alloc fst snd].
  destruct (each_counter (next w) step (callback (next w)) (Hstep (next w)) l
              (mkWorld (fun r' => if (r' =? next w)%nat then Num 0 else cells w r')
                 (S (next w)) (clock w) (entropy w)))
    as (Hn & Hc & Hf).
  split; [reflexivity | split; [exact Hn | split]].
  - rewrite Hc. unfold number; cbn. rewrite Nat.eqb_refl. reflexivity.
  - intros r Hr. rewrite (Hf r) by lia. cbn.
    destruct (Nat.eqb_spec r (next w)); [lia | reflexivity].
Qed.

(** On every world [parseSEOData] returns the signals of the functional
    reading; it takes fresh references and leaves the cells of earlier calls
    as they were. *)
Lemma parseSEOData_run_spec html url w :
  fst (parseSEOData_run resolve load parse html url w) =
    parseSEOData resolve load parse html url /\
  (next w <= next (snd (parseSEOData_run resolve load parse html url w)))%nat /\
  kept_below (next w) w (snd (parseSEOData_run resolve load parse html url w)).
Proof.
  unfold parseSEOData_run, parseSEOData.
  destruct (parse url) as [urlObj |];
    [| split; [reflexivity | split; [apply Nat.le_refl | intros r _; reflexivity]]].
  cbv zeta. unfold seq, read_number, ret. cbn [fst snd].
  destruct (counted_loop count_missing_alt missing_alt_callback
              (select_tag (load html) "img") w missing_alt_callback_steps)
    as (Hr1 & Hn1 & Hc1 & Hk1).
  set (w1 := snd (each (select_tag (load html) "img")
                    (missing_alt_callback (fst (alloc (Num 0) w)))
                    (snd (alloc (Num 0) w)))) in *.
  destruct (counted_loop (count_internal_link resolve url (hostname urlObj))
              (internal_link_callback resolve url (hostname urlObj))
              (select_tag_has_attr (load html) "a" "href") w1
              (internal_link_callback_steps url (hostname urlObj)))
    as (Hr2 & Hn2 & Hc2 & Hk2).
  set (w2 := snd (each (select_tag_has_attr (load html) "a" "href")
                    (internal_link_callback resolve url (hostname urlObj)
                       (fst (alloc (Num 0) w1)))
                    (snd (alloc (Num 0) w1)))) in *.
  rewrite Hr1, Hr2.
  assert (Hkeep : number w2 (next w) = number w1 (next w)).
  { unfold number. rewrite (Hk2 (next w)) by lia. reflexivity. }
  split; [| split].
  - unfold extract. rewrite Hkeep, Hc1, Hc2. reflexivity.
  - lia.
  - intros r Hr. rewrite (Hk2 r) by lia. apply Hk1. exact Hr.
Qed.

End Functions.

Lemma alloc_spec c w :
  fst (alloc c w) = next w /\
  next (snd (alloc c w)) = S (next w) /\
  cells (snd (alloc c w)) (next w) = c /\
  (forall r, r <> next w -> cells (snd (alloc c w)) r = cells w r).
Proof.
  cbn. rewrite Nat.eqb_refl. repeat split.
  intros r Hr. destruct (Nat.eqb_spec r (next w)); [contradiction | reflexivity].
Qed.

(** One check keeps the run and the functional reading in step. *)
Lemma check_run_spec condition c issue i p score w l :
  i <> p ->
  agrees w i p score l ->
  agrees (snd (check_run condition c issue i p score w)) i p
    (fst (check_run condition c issue i p score w))
    (if condition then award c l else report issue l) /\
  next (snd (check_run condition c issue i p score w)) = next w /\
  (forall r, r <> i -> r <> p ->
     cells (snd (check_run condition c issue i p score w)) r = cells w r).
Proof.
  intros Hne (Hi & Hp & Hs). unfold check_run, agrees, seq, push, ret, store, items.
  destruct condition; cbn; rewrite ?Nat.eqb_refl;
    (destruct (Nat.eqb_spec i p); [contradiction |]);
    (destruct (Nat.eqb_spec p i); [congruence |]);
    unfold items in Hi, Hp; rewrite ?Hi, ?Hp, ?Hs;
    (split; [repeat split | split; [reflexivity |]]);
    intros r Hr1 Hr2;
    (destruct (Nat.eqb_spec r p); [contradiction |]);
    (destruct (Nat.eqb_spec r i); [contradiction |]); reflexivity.
Qed.

(** On every world [calculateScore] returns the result of the functional
    reading, in two arrays it has just made; it leaves the cells of earlier
    calls as they were. *)
Lemma calculateScore_run_spec d w :
  read_result (snd (calculateScore_run d w)) (fst (calculateScore_run d w)) =
    calculateScore d /\
  next (snd (calculateScore_run d w)) = (3 + next w)%nat /\
  kept_below (next w) w (snd (calculateScore_run d w)) /\
  (next w <= ref_issues (fst (calculateScore_run d w))
     < next (snd (calculateScore_run d w)))%nat /\
  (next w <= ref_passedChecks (fst (calculateScore_run d w))
     < next (snd (calculateScore_run d w)))%nat.
Proof.
  remember (calculateScore_run d w) as out eqn:Hout.
  unfold calculateScore_run in Hout.
  unfold seq at 1 in Hout. cbv beta in Hout.
  destruct (alloc_spec (Arr []) w) as (_ & Hn1 & _ & Hk1).
  set (w1 := snd (alloc (Arr []) w)) in *. clearbody w1.
  unfold seq at 1 in Hout. cbv beta in Hout.
  destruct (alloc_spec (Arr []) w1) as (Hf2 & Hn2 & Hc2 & Hk2).
  rewrite Hf2 in Hout. set (w2 := snd (alloc (Arr []) w1)) in *. clearbody w2.
  unfold seq at 1 in Hout. cbv beta in Hout.
  destruct (alloc_spec (Arr []) w2) as (Hf3 & Hn3 & Hc3 & Hk3).
  rewrite Hf3 in Hout. set (w3 := snd (alloc (Arr []) w2)) in *. clearbody w3.
  cbv zeta in Hout.
  assert (Hne : next w1 <> next w2) by lia.
  assert (Hag0 : agrees w3 (next w1) (next w2) 0%Z (mkLocals [] [] [] 0)).
  { unfold agrees, items. rewrite Hc3, (Hk3 (next w1)) by lia. rewrite Hc2.
    repeat split. }
  unfold seq at 1 in Hout. cbv beta in Hout.
  destruct (check_run_spec (present (title d)) SCORING.TITLE_PRESENT
              "Missing page title tag" _ _ _ w3 _ Hne Hag0) as (Hag1 & Hx1 & Hfr1).
  fold (check_title d (mkLocals [] [] [] 0)) in Hag1.
  set (o1 := check_run (present (title d)) _ _ _ _ _ w3) in *. clearbody o1.
  unfold seq at 1 in Hout. cbv beta in Hout.
  destruct (check_run_spec (present (metaDescription d)) SCORING.META_DESCRIPTION_PRESENT
              "Missing meta description" _ _ _ (snd o1) _ Hne Hag1)
    as (Hag2 & Hx2 & Hfr2).
  fold (check_meta_description d (check_title d (mkLocals [] [] [] 0))) in Hag2.
  set (o2 := check_run (present (metaDescription d)) _ _ _ _ _ (snd o1)) in *. clearbody o2.
  unfold seq at 1 in Hout. cbv beta in Hout.
  destruct (check_run_spec (1 <=? h1Count d)%nat SCORING.H1_PRESENT
              "No H1 tags found on the page" _ _ _ (snd o2) _ Hne Hag2)
    as (Hag3 & Hx3 & Hfr3).
  fold (check_h1 d (check_meta_description d (check_title d (mkLocals [] [] [] 0))))
    in Hag3.
  set (o3 := check_run (1 <=? h1Count d)%nat _ _ _ _ _ (snd o2)) in *. clearbody o3.
  unfold seq at 1 in Hout. cbv beta in Hout.
  destruct (check_run_spec
              ((totalImages d =? 0)%nat || (imagesMissingAlt d =? 0)%nat)
              SCORING.IMAGES_HAVE_ALT
              (nat_to_string (imagesMissingAlt d) ++ " image(s) missing alt text")
              _ _ _ (snd o3) _ Hne Hag3)
    as (Hag4 & Hx4 & Hfr4).
  fold (check_images d
          (check_h1 d (check_meta_description d (check_title d (mkLocals [] [] [] 0)))))
    in Hag4.
  set (o4 := check_run ((totalImages d =? 0)%nat || (imagesMissingAlt d =? 0)%nat)
               _ _ _ _ _ (snd o3)) in *. clearbody o4.
  unfold seq at 1 in Hout. cbv beta in Hout.
  destruct (check_run_spec (usesHTTPS d) SCORING.USES_HTTPS
              "Page does not use HTTPS" _ _ _ (snd o4) _ Hne Hag4)
    as (Hag5 & Hx5 & Hfr5).
  fold (check_https d (check_images d
          (check_h1 d (check_meta_description d (check_title d (mkLocals [] [] [] 0))))))
    in Hag5.
  set (o5 := check_run (usesHTTPS d) _ _ _ _ _ (snd o4)) in *. clearbody o5.
  cbv zeta in Hout. unfold ret in Hout. subst out.
  cbn [fst snd ref_score ref_issues ref_passedChecks].
  destruct Hag5 as (Hi & Hp & Hs).
  assert (Hnext : next (snd o5) = S (S (S (next w))))
    by (rewrite Hx5, Hx4, Hx3, Hx2, Hx1, Hn3, Hn2, Hn1; reflexivity).
  assert (Hr1 : forall r, (r < next w)%nat -> r <> next w1) by (intros r Hr; lia).
  assert (Hr2 : forall r, (r < next w)%nat -> r <> next w2) by (intros r Hr; lia).
  split; [| split; [| split; [| split]]].
  - unfold read_result. cbn [ref_score ref_issues ref_passedChecks].
    rewrite Hi, Hp, Hs. reflexivity.
  - exact Hnext.
  - intros r Hr.
    rewrite Hfr5, Hfr4, Hfr3, Hfr2, Hfr1 by auto.
    rewrite Hk3, Hk2, Hk1 by lia. reflexivity.
  - rewrite Hnext, Hn1. clear. lia.
  - rewrite Hnext, Hn2, Hn1. clear. lia.
Qed.

Section Runs.

Variable resolve : string -> string -> option URL.
Variable load : string -> list Node.
Variable parse : string -> option URL.

(** A run returns what the functional reading returns, in arrays that it
    took from the free references, and leaves the cells of before as they
    were. *)
Lemma extract_and_score_run_spec html url w :
  observed (world_after resolve load parse html url w)
    (result_of resolve load parse html url w) =
    extract_and_score resolve load parse html url /\
  (next w <= next (world_after resolve load parse html url w))%nat /\
  kept_below (next w) w (world_after resolve load parse html url w) /\
  (forall d r, result_of resolve load parse html url w = Normal (d, r) ->
     (ref_issues r < next (world_after resolve load parse html url w))%nat /\
     (ref_passedChecks r < next (world_after resolve load parse html url w))%nat).
Proof.
  unfold world_after, result_of, extract_and_score_run, extract_and_score, seq.
  destruct (parseSEOData_run_spec resolve load parse html url w) as (Hf & Hn & Hk).
  rewrite Hf.
  set (w1 := snd (parseSEOData_run resolve load parse html url w)) in *.
  clearbody w1.
  destruct (parseSEOData resolve load parse html url) as [d | e]; cbn [bind].
  - destruct (calculateScore_run_spec d w1) as (Hr & Hn' & Hk' & Hi & Hp).
    unfold seq, ret. cbn [fst snd observed].
    split; [rewrite Hr; reflexivity | split; [| split]].
    + rewrite Hn'. clear - Hn. lia.
    + intros r Hlt. rewrite Hk' by (clear - Hn Hlt; lia). apply Hk. exact Hlt.
    + intros d0 r0 H. inversion H; subst. split; [apply Hi | apply Hp].
  - unfold ret. cbn [fst snd observed].
    split; [reflexivity | split; [exact Hn | split; [exact Hk | discriminate]]].
Qed.

(** C9: extraction followed by scoring gives the same signals and the same
    score result on the same HTML text and URL, whatever the world the call
    starts in (the store that earlier calls left, the clock, the random
    source): so for two calls from any two worlds, and for a second call made
    in the world the first one left.  A later call, on any text and URL,
    leaves the result of an earlier call as it was. *)
Theorem two_runs_agree (html url : string) (w w' : World) :
  observed (world_after resolve load parse html url w)
    (result_of resolve load parse html url w) =
  observed (world_after resolve load parse html url w')
    (result_of resolve load parse html url w') /\
  observed
    (world_after resolve load parse html url
       (world_after resolve load parse html url w))
    (result_of resolve load parse html url
       (world_after resolve load parse html url w)) =
  observed (world_after resolve load parse html url w)
    (result_of resolve load parse html url w) /\
  (forall html' url',
     observed
       (world_after resolve load parse html' url'
          (world_after resolve load parse html url w))
       (result_of resolve load parse html url w) =
     observed (world_after resolve load parse html url w)
       (result_of resolve load parse html url w)) /\
  observed (world_after resolve load parse html url w)
    (result_of resolve load parse html url w) =
  extract_and_score resolve load parse html url.
Proof.
  destruct (extract_and_score_run_spec html url w) as (Ho & _ & _ & Hrefs).
  split; [| split; [| split; [| exact Ho]]].
  - rewrite Ho. symmetry. apply extract_and_score_run_spec.
  - rewrite Ho. apply extract_and_score_run_spec.
  - intros html' url'.
    destruct (extract_and_score_run_spec html' url'
                (world_after resolve load parse html url w)) as (_ & _ & Hk & _).
    destruct (result_of resolve load parse html url w) as [[d r] | e];
      [| reflexivity].
    destruct (Hrefs d r eq_refl) as [Hi Hp].
    unfold observed, read_result, items.
    rewrite (Hk _ Hi), (Hk _ Hp). reflexivity.
Qed.

End Runs.

End RunFacts.
